(** * ClientForm: a shallow embedding of [src/ClientForm.tsx]

    The component is a React function component holding five state cells
    ([formData], [loading], [submitting], [error], [success]), one effect
    that runs on mount, two asynchronous handlers ([fetchClient],
    [handleSubmit]), one synchronous handler ([handleChange]) and a render
    function.  The embedding follows that shape: JavaScript values as an
    inductive type, the handlers as computations in a small state-and-
    exception monad, every [await] as a point where the environment supplies
    the outcome, and the page as a labelled transition system. *)

From stdpp Require Import gmap strings list fin_maps pretty.
From Stdlib Require Import ZArith Lia.

Local Open Scope string_scope.
Local Open Scope Z_scope.

(** ** JavaScript values *)

Module Js.

(** Values that [JSON.parse] can return, together with [undefined] (the
    result of reading a property that is not there).  A number is an integer
    here: the component looks at numbers only through truthiness and string
    conversion. *)
#[warnings="-register-all"]
Inductive JsValue : Type :=
  | JUndefined
  | JNull
  | JBool (b : bool)
  | JNum (n : Z)
  | JStr (s : string)
  | JArr (elems : list JsValue)
  | JObj (props : gmap string JsValue).

(** [ToBoolean]: [undefined], [null], [false], [0] and [''] are falsy. *)
Definition truthy (v : JsValue) : bool :=
  match v with
  | JUndefined | JNull => false
  | JBool b => b
  | JNum n => negb (n =? 0)
  | JStr s => negb (String.eqb s "")
  | JArr _ | JObj _ => true
  end.

(** [a || b] *)
Definition js_or (a b : JsValue) : JsValue :=
  if truthy a then a else b.

(** [v.k]: reading a property of [undefined] or [null] throws a TypeError
    ([None]); an object yields the property or [undefined].  Primitives and
    arrays own only [length], indices and methods, none of which is a name
    this component reads, so they yield [undefined]. *)
Definition getProp (v : JsValue) (k : string) : option JsValue :=
  match v with
  | JUndefined | JNull => None
  | JObj props => Some (default JUndefined (props !! k))
  | JBool _ | JNum _ | JStr _ | JArr _ => Some JUndefined
  end.

(** [v.k] for a [v] that is known not to throw. *)
Definition read (v : JsValue) (k : string) : JsValue :=
  default JUndefined (getProp v k).

(** [String(v)], as used by template literals and by React when it writes a
    [value] prop to the DOM.  Array elements are joined with commas, [null]
    and [undefined] elements giving the empty string. *)
Fixpoint toStr (v : JsValue) : string :=
  match v with
  | JUndefined => "undefined"
  | JNull => "null"
  | JBool b => if b then "true" else "false"
  | JNum n => pretty n
  | JStr s => s
  | JArr elems =>
      String.concat ","
        (List.map (fun e => match e with
                            | JUndefined | JNull => ""
                            | _ => toStr e
                            end) elems)
  | JObj _ => "[object Object]"
  end.

(** What can be thrown inside the two asynchronous handlers. *)
Inductive JsError : Type :=
  | FetchRejected      (* the promise of [fetch] rejects: transport error *)
  | JsonRejected       (* the promise of [response.json()] rejects: parse error *)
  | TypeError.         (* property read on [null] or [undefined] *)

End Js.
Import Js.

(** ** The component's state, its effects and the handler monad *)

(** [type ClientFormProps = { clientId?: number; isEditMode?: boolean }];
    [isEditMode] defaults to [false] in the parameter list. *)
Record ClientFormProps : Type := {
  clientId : option Z;
  isEditMode : bool
}.

(** [formData] is a JavaScript object used as a record of ten properties;
    [handleChange] writes it through a computed key, so it is a finite map. *)
Abbreviation ClientFormData := (gmap string JsValue).

(** The five [useState] cells. [error] and [success] are declared as strings
    but receive [data.message || '...'], whatever the server put there. *)
Record State : Type := {
  formData : ClientFormData;
  loading : bool;
  submitting : bool;
  error : JsValue;
  success : JsValue
}.

Inductive Method : Type := GET | POST | PUT.

(** The arguments of one [fetch] call. [body] is [JSON.stringify(formData)],
    kept as the object that is serialised. *)
Record Request : Type := {
  url : string;
  method : Method;
  headers : list (string * string);
  body : option ClientFormData
}.

(** [response.json()] settles from the response alone: [Some data] when the
    body parses, [None] when the promise rejects.  [status] is the HTTP
    status code. *)
Record Response : Type := {
  status : Z;
  json : option JsValue
}.

(** How [await fetch(...)] settles. *)
Inductive FetchOutcome : Type :=
  | Rejected
  | Resolved (response : Response).

(** The arrow function given to [setTimeout]. *)
Inductive Callback : Type :=
  | RouterPush (path : string).

(** The asynchronous function to resume when a request settles. *)
Inductive Continuation : Type :=
  | KFetchClient
  | KHandleSubmit.

(** What a handler does to the outside, in program order. *)
Inductive Effect : Type :=
  | PreventDefault
  | Fetch (req : Request) (k : Continuation)
  | SetTimeout (cb : Callback) (ms : Z)
  | Navigate (path : string)
  | ConsoleError (label : string) (err : JsError).

Record World : Type := {
  cell : State;
  trace : list Effect
}.

Inductive Completion (A : Type) : Type :=
  | Normal (a : A)
  | Throw (e : JsError).
Arguments Normal {A} a.
Arguments Throw {A} e.

(** Handler code: reads and writes the state cells, emits effects, and
    completes normally or abruptly. *)
Definition M (A : Type) : Type := World -> Completion A * World.

Definition ret {A} (a : A) : M A := fun w => (Normal a, w).

Definition bind {A B} (m : M A) (f : A -> M B) : M B :=
  fun w =>
    match m w with
    | (Normal a, w') => f a w'
    | (Throw e, w') => (Throw e, w')
    end.

Definition throw {A} (e : JsError) : M A := fun w => (Throw e, w).

(** [try { body } catch (err) { handler } finally { fin }] *)
Definition try_catch_finally {A} (body : M A) (handler : JsError -> M A)
    (fin : M unit) : M A :=
  fun w =>
    let '(r, w1) := match body w with
                    | (Normal a, w') => (Normal a, w')
                    | (Throw e, w') => handler e w'
                    end in
    match fin w1 with
    | (Normal _, w2) => (r, w2)
    | (Throw e, w2) => (Throw e, w2)
    end.

Declare Scope js_scope.
Delimit Scope js_scope with js.
Notation "x <- c1 ;; c2" := (bind c1 (fun x => c2))
  (at level 100, c1 at next level, right associativity) : js_scope.
Notation "c1 ;; c2" := (bind c1 (fun _ => c2))
  (at level 100, right associativity) : js_scope.
Local Open Scope js_scope.

Definition modify (f : State -> State) : M unit :=
  fun w => (Normal tt, {| cell := f (cell w); trace := trace w |}).

Definition emit (e : Effect) : M unit :=
  fun w => (Normal tt, {| cell := cell w; trace := trace w ++ [e] |}).

Definition getFormData : M ClientFormData :=
  fun w => (Normal (formData (cell w)), w).

Definition setFormData (f : ClientFormData -> ClientFormData) : M unit :=
  modify (fun s => {| formData := f (formData s); loading := loading s;
                      submitting := submitting s; error := error s;
                      success := success s |}).

Definition setLoading (b : bool) : M unit :=
  modify (fun s => {| formData := formData s; loading := b;
                      submitting := submitting s; error := error s;
                      success := success s |}).

Definition setSubmitting (b : bool) : M unit :=
  modify (fun s => {| formData := formData s; loading := loading s;
                      submitting := b; error := error s;
                      success := success s |}).

Definition setError (v : JsValue) : M unit :=
  modify (fun s => {| formData := formData s; loading := loading s;
                      submitting := submitting s; error := v;
                      success := success s |}).

Definition setSuccess (v : JsValue) : M unit :=
  modify (fun s => {| formData := formData s; loading := loading s;
                      submitting := submitting s; error := error s;
                      success := v |}).

(** [v.k] inside a handler. *)
Definition prop (v : JsValue) (k : string) : M JsValue :=
  match getProp v k with
  | Some x => ret x
  | None => throw TypeError
  end.

(** [await fetch(...)], resumed with the outcome the environment gives. *)
Definition await_fetch (o : FetchOutcome) : M Response :=
  match o with
  | Rejected => throw FetchRejected
  | Resolved response => ret response
  end.

(** [await response.json()] *)
Definition await_json (response : Response) : M JsValue :=
  match json response with
  | Some data => ret data
  | None => throw JsonRejected
  end.

Definition when (b : bool) (m : M unit) : M unit :=
  if b then m else ret tt.

(** ** The component *)

Module ClientForm.

(** The object literal given to [useState] and, again, to [setFormData]
    after a successful creation. *)
Definition blankForm : ClientFormData :=
  list_to_map
    [ ("full_name", JStr "");
      ("email", JStr "");
      ("phone", JStr "");
      ("address", JStr "");
      ("passport_number", JStr "");
      ("passport_issue_date", JStr "");
      ("passport_expiry_date", JStr "");
      ("driver_license_number", JStr "");
      ("driver_license_expiry", JStr "");
      ("notes", JStr "") ].

(** The values of the [useState] calls on the first render. *)
Definition initialState (p : ClientFormProps) : State :=
  {| formData := blankForm;
     loading := isEditMode p;
     submitting := false;
     error := JStr "";
     success := JStr "" |}.

(** [`/api/clients/${clientId}`] *)
Definition clientUrl (p : ClientFormProps) : string :=
  "/api/clients/" ++
  match clientId p with
  | Some n => toStr (JNum n)
  | None => toStr JUndefined
  end.

(** [isEditMode && clientId], the guard of the mount effect. *)
Definition shouldFetch (p : ClientFormProps) : bool :=
  isEditMode p &&
  match clientId p with
  | Some n => truthy (JNum n)
  | None => false
  end.

(** [fetchClient], up to its first [await]: the request is issued. *)
Definition fetchClient (p : ClientFormProps) : M unit :=
  emit (Fetch {| url := clientUrl p; method := GET; headers := [];
                 body := None |} KFetchClient).

(** [data.client.k] *)
Definition clientField (data : JsValue) (k : string) : M JsValue :=
  client <- prop data "client" ;;
  prop client k.

(** [fetchClient], from its first [await] to its end. *)
Definition fetchClient_resumed (o : FetchOutcome) : M unit :=
  try_catch_finally
    (response <- await_fetch o ;;
     data <- await_json response ;;
     ok <- prop data "success" ;;
     cond <- (if truthy ok then prop data "client" else ret ok) ;;
     if truthy cond then
       full_name <- clientField data "full_name" ;;
       email <- clientField data "email" ;;
       phone <- clientField data "phone" ;;
       address <- clientField data "address" ;;
       passport_number <- clientField data "passport_number" ;;
       passport_issue_date <- clientField data "passport_issue_date" ;;
       passport_expiry_date <- clientField data "passport_expiry_date" ;;
       driver_license_number <- clientField data "driver_license_number" ;;
       driver_license_expiry <- clientField data "driver_license_expiry" ;;
       notes <- clientField data "notes" ;;
       setFormData (fun _ =>
         list_to_map
           [ ("full_name", full_name);
             ("email", js_or email (JStr ""));
             ("phone", phone);
             ("address", js_or address (JStr ""));
             ("passport_number", passport_number);
             ("passport_issue_date", js_or passport_issue_date (JStr ""));
             ("passport_expiry_date", js_or passport_expiry_date (JStr ""));
             ("driver_license_number", js_or driver_license_number (JStr ""));
             ("driver_license_expiry", js_or driver_license_expiry (JStr ""));
             ("notes", js_or notes (JStr "")) ])
     else
       message <- prop data "message" ;;
       setError (js_or message (JStr "Не удалось загрузить данные клиента")))
    (fun err =>
       setError (JStr "Ошибка при загрузке данных") ;;
       emit (ConsoleError "Fetch client error:" err))
    (setLoading false).

(** The [useEffect] body, as it runs after the first render.  React runs
    the same body again after a later render that changed [isEditMode] or
    [clientId]: see [Live.updateEffect]. *)
Definition mountEffect (p : ClientFormProps) : M unit :=
  when (shouldFetch p) (fetchClient p).

(** [handleChange], with [name] and [value] read from [e.target]. *)
Definition handleChange (name value : string) : M unit :=
  setFormData (fun prev => <[name := JStr value]> prev).

(** [handleSubmit], up to its first [await].  The [try] block is entered
    before the request is built, but nothing before the [await] throws. *)
Definition handleSubmit (p : ClientFormProps) : M unit :=
  emit PreventDefault ;;
  setError (JStr "") ;;
  setSuccess (JStr "") ;;
  setSubmitting true ;;
  let url := if isEditMode p then clientUrl p else "/api/clients" in
  let method := if isEditMode p then PUT else POST in
  formData <- getFormData ;;
  emit (Fetch {| url := url; method := method;
                 headers := [("Content-Type", "application/json")];
                 body := Some formData |} KHandleSubmit).

(** [handleSubmit], from its first [await] to its end. *)
Definition handleSubmit_resumed (p : ClientFormProps) (o : FetchOutcome)
    : M unit :=
  try_catch_finally
    (response <- await_fetch o ;;
     data <- await_json response ;;
     ok <- prop data "success" ;;
     if truthy ok then
       message <- prop data "message" ;;
       setSuccess (js_or message (JStr "Операция выполнена успешно")) ;;
       when (negb (isEditMode p)) (setFormData (fun _ => blankForm)) ;;
       emit (SetTimeout (RouterPush "/clients") 2000)
     else
       message <- prop data "message" ;;
       setError (js_or message (JStr "Произошла ошибка")))
    (fun err =>
       setError (JStr "Произошла ошибка при отправке данных") ;;
       emit (ConsoleError "Submit error:" err))
    (setSubmitting false).

(** The body of a timer callback. *)
Definition runCallback (cb : Callback) : M unit :=
  match cb with
  | RouterPush path => emit (Navigate path)
  end.

(** The click handler of the cancel button. *)
Definition handleCancel : M unit := emit (Navigate "/clients").

(** *** Rendering *)

Record InputElement : Type := {
  name : string;
  type : string;
  value : JsValue;
  required : bool
}.

Inductive View : Type :=
  | LoadingView
  | FormView (heading : string)
             (errorBanner successBanner : option JsValue)
             (inputs : list InputElement)
             (submitLabel : string) (submitDisabled : bool).

(** [formData.k] *)
Definition field (fd : ClientFormData) (k : string) : JsValue :=
  default JUndefined (fd !! k).

(** [{v && <div>{v}</div>}]: the banner is there when [v] is truthy. *)
Definition banner (v : JsValue) : option JsValue :=
  if truthy v then Some v else None.

(** The nine [<input>] elements and the [<textarea>], in document order. *)
Definition renderInputs (fd : ClientFormData) : list InputElement :=
  [ {| name := "full_name"; type := "text";
       value := field fd "full_name"; required := true |};
    {| name := "phone"; type := "tel";
       value := field fd "phone"; required := true |};
    {| name := "email"; type := "email";
       value := field fd "email"; required := false |};
    {| name := "address"; type := "text";
       value := field fd "address"; required := false |};
    {| name := "passport_number"; type := "text";
       value := field fd "passport_number"; required := true |};
    {| name := "passport_issue_date"; type := "date";
       value := field fd "passport_issue_date"; required := false |};
    {| name := "passport_expiry_date"; type := "date";
       value := field fd "passport_expiry_date"; required := false |};
    {| name := "driver_license_number"; type := "text";
       value := field fd "driver_license_number"; required := false |};
    {| name := "driver_license_expiry"; type := "date";
       value := field fd "driver_license_expiry"; required := false |};
    {| name := "notes"; type := "textarea";
       value := field fd "notes"; required := false |} ].

(** The value the component returns. *)
Definition render (p : ClientFormProps) (s : State) : View :=
  if loading s then LoadingView
  else
    FormView
      (if isEditMode p then "Редактирование клиента"
       else "Добавление нового клиента")
      (banner (error s))
      (banner (success s))
      (renderInputs (formData s))
      (if submitting s then "Обработка..."
       else if isEditMode p then "Сохранить изменения"
       else "Добавить клиента")
      (submitting s).

End ClientForm.

(** ** The page: the mounted component and its environment *)

Module Page.
Import ClientForm.

(** The mounted component together with what the browser holds for it:
    requests in flight, armed timers and the route (set once the router has
    been asked to leave the form). [log] keeps every effect so far. *)
Record Page : Type := {
  state : State;
  log : list Effect;
  inflight : list (Request * Continuation);
  timers : list (Callback * Z);
  location : option string
}.

(** What the environment does with one effect. *)
Definition dispatch (pg : Page) (e : Effect) : Page :=
  match e with
  | Fetch req k =>
      {| state := state pg; log := log pg;
         inflight := inflight pg ++ [(req, k)];
         timers := timers pg; location := location pg |}
  | SetTimeout cb ms =>
      {| state := state pg; log := log pg; inflight := inflight pg;
         timers := timers pg ++ [(cb, ms)]; location := location pg |}
  | Navigate path =>
      {| state := state pg; log := log pg; inflight := inflight pg;
         timers := timers pg; location := Some path |}
  | PreventDefault | ConsoleError _ _ => pg
  end.

(** Run handler code on the page and hand its effects to the environment. *)
Definition run (m : M unit) (pg : Page) : Page :=
  let w := snd (m {| cell := state pg; trace := [] |}) in
  foldl dispatch
    {| state := cell w; log := log pg ++ trace w; inflight := inflight pg;
       timers := timers pg; location := location pg |}
    (trace w).

(** First render followed by the mount effect. *)
Definition mount (p : ClientFormProps) : Page :=
  run (mountEffect p)
    {| state := initialState p; log := []; inflight := []; timers := [];
       location := None |}.

(** The string an [<input value={v}>] holds in the DOM: a string as it is,
    [undefined] and [null] as an empty control, anything else converted. *)
Definition domValue (v : JsValue) : string :=
  match v with
  | JUndefined | JNull => ""
  | _ => toStr v
  end.

(** The browser's [valueMissing] check of a control. *)
Definition valueMissing (i : InputElement) : bool :=
  required i && String.eqb (domValue (value i)) "".

(** Interactive validation before the [submit] event is fired; the form has
    no [noValidate].  Only the [required] constraint is modelled; the type
    constraints of the email and date controls can only block more. *)
Definition checkValidity (inputs : list InputElement) : bool :=
  forallb (fun i => negb (valueMissing i)) inputs.

Inductive Event : Type :=
  | Change (name value : string)           (* the user edits a control *)
  | Submit                                 (* the user submits the form *)
  | Cancel                                 (* the user clicks cancel *)
  | Settle (i : nat) (o : FetchOutcome)    (* a request in flight settles *)
  | TimerFires (i : nat).                  (* an armed timer fires *)

Definition resume (p : ClientFormProps) (k : Continuation) (o : FetchOutcome)
    : M unit :=
  match k with
  | KFetchClient => fetchClient_resumed o
  | KHandleSubmit => handleSubmit_resumed p o
  end.

Definition dropInflight (i : nat) (pg : Page) : Page :=
  {| state := state pg; log := log pg; inflight := delete i (inflight pg);
     timers := timers pg; location := location pg |}.

Definition dropTimer (i : nat) (pg : Page) : Page :=
  {| state := state pg; log := log pg; inflight := inflight pg;
     timers := delete i (timers pg); location := location pg |}.

(** One event, under the props [p] of the render whose handlers it runs.
    [None]: the event cannot happen on this page.  The user can act only on
    the rendered form, and only while the route is still the form's; the
    submit event needs an enabled submit button and valid controls.
    Requests and timers outlive the form.  A change of props is not an
    event here but one of [Live.step]. *)
Definition step (p : ClientFormProps) (ev : Event) (pg : Page) : option Page :=
  match ev with
  | Change n v =>
      match location pg, render p (state pg) with
      | None, FormView _ _ _ inputs _ _ =>
          if existsb (fun i => String.eqb (name i) n) inputs
          then Some (run (handleChange n v) pg) else None
      | _, _ => None
      end
  | Submit =>
      match location pg, render p (state pg) with
      | None, FormView _ _ _ inputs _ disabled =>
          if negb disabled && checkValidity inputs
          then Some (run (handleSubmit p) pg) else None
      | _, _ => None
      end
  | Cancel =>
      match location pg, render p (state pg) with
      | None, FormView _ _ _ _ _ _ => Some (run handleCancel pg)
      | _, _ => None
      end
  | Settle i o =>
      match inflight pg !! i with
      | Some (_, k) => Some (run (resume p k o) (dropInflight i pg))
      | None => None
      end
  | TimerFires i =>
      match timers pg !! i with
      | Some (cb, _) => Some (run (runCallback cb) (dropTimer i pg))
      | None => None
      end
  end.

Fixpoint steps (p : ClientFormProps) (evs : list Event) (pg : Page)
    : option Page :=
  match evs with
  | [] => Some pg
  | ev :: evs' =>
      match step p ev pg with
      | Some pg' => steps p evs' pg'
      | None => None
      end
  end.

(** Pages a mount with props [p] can get to while its props stay [p]. *)
Definition reachable (p : ClientFormProps) (pg : Page) : Prop :=
  exists evs, steps p evs (mount p) = Some pg.

End Page.

(** ** Vocabulary of the specification *)

Module Spec.
Import ClientForm Page.

(** The world a handler leaves behind when started in state [s] with an
    empty trace, and how it completes. *)
Definition exec (m : M unit) (s : State) : World :=
  snd (m {| cell := s; trace := [] |}).

Definition completion (m : M unit) (s : State) : Completion unit :=
  fst (m {| cell := s; trace := [] |}).

(** The ten properties of [ClientFormData]; the required ones carry the
    [required] attribute in the markup, the optional ones are read with
    [|| ''] in [fetchClient]. *)
Definition fieldNames : list string :=
  [ "full_name"; "email"; "phone"; "address"; "passport_number";
    "passport_issue_date"; "passport_expiry_date"; "driver_license_number";
    "driver_license_expiry"; "notes" ].

Definition requiredFields : list string :=
  [ "full_name"; "phone"; "passport_number" ].

Definition optionalFields : list string :=
  [ "email"; "address"; "passport_issue_date"; "passport_expiry_date";
    "driver_license_number"; "driver_license_expiry"; "notes" ].

(** A server-supplied optional field as the record type allows it: a string,
    [null], or absent. *)
Definition textOrAbsent (v : JsValue) : Prop :=
  match v with
  | JStr _ | JNull | JUndefined => True
  | _ => False
  end.

(** [null] and absent become the empty string, anything else stays. *)
Definition normalized (v : JsValue) : JsValue :=
  match v with
  | JNull | JUndefined => JStr ""
  | _ => v
  end.

Definition errorBannerOf (v : View) : option JsValue :=
  match v with
  | LoadingView => None
  | FormView _ e _ _ _ _ => e
  end.

Definition successBannerOf (v : View) : option JsValue :=
  match v with
  | LoadingView => None
  | FormView _ _ s _ _ _ => s
  end.

(** An effect that navigates or arms a timer. *)
Definition navigates (e : Effect) : bool :=
  match e with
  | SetTimeout _ _ | Navigate _ => true
  | _ => false
  end.

(** The ways a load fails, each with the message it must leave in [error]:
    the body reports failure, the body reports success but carries no
    client, or something is thrown on the way (the transport fails, the body
    does not parse, or it parses to [null]). *)
Inductive LoadFailure : FetchOutcome -> JsValue -> Prop :=
  | load_reported r data ok :
      json r = Some data ->
      getProp data "success" = Some ok -> truthy ok = false ->
      LoadFailure (Resolved r)
        (js_or (read data "message")
               (JStr "Не удалось загрузить данные клиента"))
  | load_no_client r data ok :
      json r = Some data ->
      getProp data "success" = Some ok -> truthy ok = true ->
      truthy (read data "client") = false ->
      LoadFailure (Resolved r)
        (js_or (read data "message")
               (JStr "Не удалось загрузить данные клиента"))
  | load_transport :
      LoadFailure Rejected (JStr "Ошибка при загрузке данных")
  | load_parse r :
      json r = None ->
      LoadFailure (Resolved r) (JStr "Ошибка при загрузке данных")
  | load_null r data :
      json r = Some data -> getProp data "success" = None ->
      LoadFailure (Resolved r) (JStr "Ошибка при загрузке данных").

(** The ways a submit fails, each with the message it must leave. *)
Inductive SubmitFailure : FetchOutcome -> JsValue -> Prop :=
  | submit_reported r data ok :
      json r = Some data ->
      getProp data "success" = Some ok -> truthy ok = false ->
      SubmitFailure (Resolved r)
        (js_or (read data "message") (JStr "Произошла ошибка"))
  | submit_transport :
      SubmitFailure Rejected (JStr "Произошла ошибка при отправке данных")
  | submit_parse r :
      json r = None ->
      SubmitFailure (Resolved r) (JStr "Произошла ошибка при отправке данных")
  | submit_null r data :
      json r = Some data -> getProp data "success" = None ->
      SubmitFailure (Resolved r)
        (JStr "Произошла ошибка при отправке данных").

(** A trace that arms no timer and asks for no navigation: empty, or one
    diagnostic line. *)
Definition quiet (es : list Effect) : Prop :=
  es = [] \/ exists label err, es = [ConsoleError label err].

(** The request line the specification gives for [submit()]: create when no
    identifier was supplied at mount, update when one was. *)
Definition requestLineByIdentifier (p : ClientFormProps) : Method * string :=
  match clientId p with
  | None => (POST, "/api/clients")
  | Some n => (PUT, "/api/clients/" ++ toStr (JNum n))
  end.

(** The request line of the [fetch] calls in a trace. *)
Definition requestLines (es : list Effect) : list (Method * string) :=
  omap (fun e => match e with
                 | Fetch req _ => Some (method req, url req)
                 | _ => None
                 end) es.

(** What holds of every page a mount can get to while its props stay the
    same.  While the loading indicator is up, the form is still blank, no
    timer is armed and at most the load is in flight; once it is down, only
    submits are in flight. *)
Definition Inv (pg : Page) : Prop :=
  if loading (state pg) then
    formData (state pg) = blankForm /\ timers pg = [] /\
    (inflight pg = [] \/ exists req, inflight pg = [(req, KFetchClient)])
  else
    Forall (fun rk => snd rk = KHandleSubmit) (inflight pg).

(** A submitted body whose required fields are all non-empty. *)
Definition validBody (req : Request) : Prop :=
  exists fd, body req = Some fd /\
             forall k, k ∈ requiredFields -> domValue (field fd k) <> "".

End Spec.

(** ** Concrete scenarios *)

Module Scenario.
Import ClientForm Page Spec.

(** The page after the events [evs], counted from the mount (the mount
    itself if they cannot all happen). *)
Definition pageAfter (p : ClientFormProps) (evs : list Event) : Page :=
  default (mount p) (steps p evs (mount p)).

Definition createProps : ClientFormProps :=
  {| clientId := None; isEditMode := false |}.

Definition editProps : ClientFormProps :=
  {| clientId := Some 42; isEditMode := true |}.

Definition editPropsNoId : ClientFormProps :=
  {| clientId := None; isEditMode := true |}.

Definition respond (code : Z) (data : JsValue) : Response :=
  {| status := code; json := Some data |}.

(** [{success: true, message: "Created"}] *)
Definition createdBody : JsValue :=
  JObj (list_to_map [("success", JBool true); ("message", JStr "Created")]).

(** [{success: false, message: "Duplicate passport"}] *)
Definition duplicateBody : JsValue :=
  JObj (list_to_map [("success", JBool false);
                     ("message", JStr "Duplicate passport")]).

(** [{success: false, message: "Not found"}] *)
Definition notFoundBody : JsValue :=
  JObj (list_to_map [("success", JBool false); ("message", JStr "Not found")]).

(** [{success: true, client: {full_name: "A", phone: "1",
      passport_number: "P", email: null}}] *)
Definition clientBody : JsValue :=
  JObj (list_to_map
    [("success", JBool true);
     ("client",
      JObj (list_to_map [("full_name", JStr "A"); ("phone", JStr "1");
                         ("passport_number", JStr "P"); ("email", JNull)]))]).

(** The user fills the three required fields and submits. *)
Definition fillAndSubmit : list Event :=
  [ Change "full_name" "Ivanov I.I.";
    Change "phone" "+70000000000";
    Change "passport_number" "1234 567890";
    Submit ].

Definition filledForm : ClientFormData :=
  <["passport_number" := JStr "1234 567890"]>
    (<["phone" := JStr "+70000000000"]>
       (<["full_name" := JStr "Ivanov I.I."]> blankForm)).

Definition createRequest : Request :=
  {| url := "/api/clients"; method := POST;
     headers := [("Content-Type", "application/json")];
     body := Some filledForm |}.

Definition loadRequest : Request :=
  {| url := "/api/clients/42"; method := GET; headers := []; body := None |}.

(** The record of [clientBody] as the form holds it after the load. *)
Definition loadedForm : ClientFormData :=
  <["passport_number" := JStr "P"]>
    (<["phone" := JStr "1"]> (<["full_name" := JStr "A"]> blankForm)).

Definition updateRequest : Request :=
  {| url := "/api/clients/42"; method := PUT;
     headers := [("Content-Type", "application/json")];
     body := Some loadedForm |}.

(** The edit form is loaded, then submitted as it is. *)
Definition loadAndSubmit : list Event :=
  [ Settle 0 (Resolved (respond 200 clientBody)); Submit ].

End Scenario.

(** ** Vocabulary for the rest of the component *)

Module More.
Import ClientForm Page Spec.

(** The controls of a view; the loading indicator has none. *)
Definition inputsOf (v : View) : list InputElement :=
  match v with
  | LoadingView => []
  | FormView _ _ _ inputs _ _ => inputs
  end.

(** The [value] prop the view gives the control called [k], if it has such
    a control.  This is what the component passes to the element, before
    any sanitisation the browser applies to it (a date control shows
    nothing for a string that is not a date). *)
Definition controlValue (v : View) (k : string) : option JsValue :=
  value <$> List.find (fun i => String.eqb (name i) k) (inputsOf v).

(** Whether the submit button of a view is disabled. *)
Definition submitDisabledOf (v : View) : option bool :=
  match v with
  | LoadingView => None
  | FormView _ _ _ _ _ disabled => Some disabled
  end.

(** The [fetch] calls of a trace that belong to [fetchClient]. *)
Definition loadRequests (es : list Effect) : list Request :=
  omap (fun e => match e with
                 | Fetch req KFetchClient => Some req
                 | _ => None
                 end) es.

(** The [fetch] calls of a trace that belong to [handleSubmit]. *)
Definition submitRequests (es : list Effect) : list Request :=
  omap (fun e => match e with
                 | Fetch req KHandleSubmit => Some req
                 | _ => None
                 end) es.

(** The [console.error] calls of a trace. *)
Definition consoleErrors (es : list Effect) : list (string * JsError) :=
  omap (fun e => match e with
                 | ConsoleError label err => Some (label, err)
                 | _ => None
                 end) es.

(** The paths of the [router.push] calls of a trace. *)
Definition navigations (es : list Effect) : list string :=
  omap (fun e => match e with
                 | Navigate path => Some path
                 | _ => None
                 end) es.

(** What an outcome makes the [try] block throw, if anything: the rejection
    of [fetch], the rejection of [response.json()], or the TypeError of
    reading [success] off a body that parsed to [null]. *)
Definition thrown (o : FetchOutcome) : option JsError :=
  match o with
  | Rejected => Some FetchRejected
  | Resolved r =>
      match json r with
      | None => Some JsonRejected
      | Some data =>
          match getProp data "success" with
          | None => Some TypeError
          | Some _ => None
          end
      end
  end.

(** The user's events, as opposed to those of the network and the clock. *)
Definition userEvent (ev : Event) : bool :=
  match ev with
  | Change _ _ | Submit | Cancel => true
  | Settle _ _ | TimerFires _ => false
  end.

(** What holds of every page a mount can get to while its props stay the
    same, beyond [Inv]: the form
    data has the ten properties and no other; the route is the form's or
    [/clients]; every armed timer is the redirect; while loading the page
    is as mounted; while submitting both messages are cleared and exactly
    that submit is in flight; otherwise nothing is in flight and at most
    one of the two messages is set. *)
Definition Shape (p : ClientFormProps) (pg : Page) : Prop :=
  dom (formData (state pg)) = (list_to_set fieldNames : gset string) /\
  (location pg = None \/ location pg = Some "/clients") /\
  Forall (fun t => t = (RouterPush "/clients", 2000)) (timers pg) /\
  if loading (state pg) then
    pg = mount p /\ isEditMode p = true
  else if submitting (state pg) then
    error (state pg) = JStr "" /\ success (state pg) = JStr "" /\
    exists req, inflight pg = [(req, KHandleSubmit)]
  else
    inflight pg = [] /\
    (error (state pg) = JStr "" \/ success (state pg) = JStr "").

(** The request [handleSubmit] builds from the props and the form data. *)
Definition submitRequest (p : ClientFormProps) (fd : ClientFormData)
    : Request :=
  {| url := if isEditMode p then clientUrl p else "/api/clients";
     method := if isEditMode p then PUT else POST;
     headers := [("Content-Type", "application/json")];
     body := Some fd |}.

(** The request [fetchClient] builds from the props. *)
Definition loadRequest (p : ClientFormProps) : Request :=
  {| url := clientUrl p; method := GET; headers := []; body := None |}.

(** The object literal [fetchClient] gives to [setFormData], as a function
    of [data.client]. *)
Definition formOfClient (client : JsValue) : ClientFormData :=
  list_to_map
    [ ("full_name", read client "full_name");
      ("email", js_or (read client "email") (JStr ""));
      ("phone", read client "phone");
      ("address", js_or (read client "address") (JStr ""));
      ("passport_number", read client "passport_number");
      ("passport_issue_date",
       js_or (read client "passport_issue_date") (JStr ""));
      ("passport_expiry_date",
       js_or (read client "passport_expiry_date") (JStr ""));
      ("driver_license_number",
       js_or (read client "driver_license_number") (JStr ""));
      ("driver_license_expiry",
       js_or (read client "driver_license_expiry") (JStr ""));
      ("notes", js_or (read client "notes") (JStr "")) ].

(** The timers a trace arms. *)
Definition timeouts (es : list Effect) : list (Callback * Z) :=
  omap (fun e => match e with
                 | SetTimeout cb ms => Some (cb, ms)
                 | _ => None
                 end) es.

(** The diagnostic a handler logs for an outcome: one line when something
    was thrown, none otherwise. *)
Definition diagnostic (label : string) (o : FetchOutcome) : list Effect :=
  match thrown o with
  | Some e => [ConsoleError label e]
  | None => []
  end.

(** The four ways a request settles: what the resumed handler makes of the
    state [s] and which effects it leaves. *)
Inductive Settled (p : ClientFormProps) (s : State)
    : Continuation -> FetchOutcome -> State -> list Effect -> Prop :=
  | settled_load_ok r data ok :
      json r = Some data ->
      getProp data "success" = Some ok -> truthy ok = true ->
      truthy (read data "client") = true ->
      Settled p s KFetchClient (Resolved r)
        {| formData := formOfClient (read data "client"); loading := false;
           submitting := submitting s; error := error s;
           success := success s |}
        []
  | settled_load_failed o m :
      LoadFailure o m ->
      Settled p s KFetchClient o
        {| formData := formData s; loading := false;
           submitting := submitting s; error := m; success := success s |}
        (diagnostic "Fetch client error:" o)
  | settled_submit_ok r data ok :
      json r = Some data ->
      getProp data "success" = Some ok -> truthy ok = true ->
      Settled p s KHandleSubmit (Resolved r)
        {| formData := if isEditMode p then formData s else blankForm;
           loading := loading s; submitting := false; error := error s;
           success := js_or (read data "message")
                            (JStr "Операция выполнена успешно") |}
        [SetTimeout (RouterPush "/clients") 2000]
  | settled_submit_failed o m :
      SubmitFailure o m ->
      Settled p s KHandleSubmit o
        {| formData := formData s; loading := loading s;
           submitting := false; error := m; success := success s |}
        (diagnostic "Submit error:" o).

(** The create scenario carried through: the server answers "Created" and
    the redirect timer fires. *)
Definition createAndRedirect : list Event :=
  [ Change "full_name" "Ivanov I.I.";
    Change "phone" "+70000000000";
    Change "passport_number" "1234 567890";
    Submit;
    Settle 0 (Resolved {| status := 201;
                          json := Some (JObj (list_to_map
                            [("success", JBool true);
                             ("message", JStr "Created")])) |});
    TimerFires 0 ].


End More.

(** ** The component under changing props *)

Module Live.
Import ClientForm Page Spec Scenario More.

(** Whether a render changed a dependency of the effect,
    [[isEditMode, clientId]], compared as React does with [Object.is]. *)
Definition depsChanged (prev next : ClientFormProps) : bool :=
  negb (Bool.eqb (isEditMode prev) (isEditMode next) &&
        bool_decide (clientId prev = clientId next)).

(** The effect after a render that is not the first: its body runs again,
    with the new props, when a dependency changed. *)
Definition updateEffect (prev next : ClientFormProps) : M unit :=
  when (depsChanged prev next) (mountEffect next).

(** Whether React can render a value as a child: text and numbers are
    shown, booleans, [null] and [undefined] show nothing, an array shows
    its items, and an object that is not an element makes the render
    throw. *)
Fixpoint renderable (v : JsValue) : bool :=
  match v with
  | JObj _ => false
  | JArr elems => forallb renderable elems
  | _ => true
  end.

Definition bannerRenders (b : option JsValue) : bool :=
  match b with
  | Some v => renderable v
  | None => true
  end.

(** Whether React can put the view the component returned on screen: the
    banners are the only children that are not fixed text. *)
Definition renders (v : View) : bool :=
  match v with
  | LoadingView => true
  | FormView _ e s _ _ _ => bannerRenders e && bannerRenders s
  end.

(** A mounted component whose parent may give it new props: the props of
    the latest render, the page, for each request in flight the props of
    the render whose handler issued it (the handler resumes with those,
    not with the latest), and whether the component is still on screen: a
    render that throws takes it off, for good.  The handlers of requests in
    flight and the timers still run then; the state they write is no
    longer shown. *)
Record Mounted : Type := {
  props : ClientFormProps;
  page : Page;
  owners : list ClientFormProps;
  onScreen : bool
}.

Inductive Event : Type :=
  | Of (ev : Page.Event)                (* an event of the page *)
  | Rerender (next : ClientFormProps).  (* the parent renders with new props *)

Definition mount (p : ClientFormProps) : Mounted :=
  {| props := p; page := Page.mount p;
     owners := if shouldFetch p then [p] else [];
     onScreen := true |}.

(** The component stays on screen when it was there and React can render
    the view it returns next. *)
Definition stays (m : Mounted) (p' : ClientFormProps) (pg' : Page) : bool :=
  onScreen m && renders (render p' (state pg')).

(** One event.  The events of the page run the handlers of the latest
    render, except that a settling request resumes the handler that issued
    it; a render with new props runs the effect again.  The user's events
    and the renders with new props need the component on screen. *)
Definition step (ev : Event) (m : Mounted) : option Mounted :=
  match ev with
  | Rerender next =>
      if onScreen m then
        let pg' := run (updateEffect (props m) next) (page m) in
        Some {| props := next; page := pg';
                owners := owners m ++
                          (if depsChanged (props m) next && shouldFetch next
                           then [next] else []);
                onScreen := stays m next pg' |}
      else None
  | Of (Settle i o) =>
      match owners m !! i with
      | Some q =>
          match Page.step q (Settle i o) (page m) with
          | Some pg' =>
              Some {| props := props m; page := pg';
                      owners := delete i (owners m);
                      onScreen := stays m (props m) pg' |}
          | None => None
          end
      | None => None
      end
  | Of (TimerFires i) =>
      match Page.step (props m) (TimerFires i) (page m) with
      | Some pg' => Some {| props := props m; page := pg';
                            owners := owners m;
                            onScreen := stays m (props m) pg' |}
      | None => None
      end
  | Of Submit =>
      if onScreen m then
        match Page.step (props m) Submit (page m) with
        | Some pg' => Some {| props := props m; page := pg';
                              owners := owners m ++ [props m];
                              onScreen := stays m (props m) pg' |}
        | None => None
        end
      else None
  | Of ev' =>
      if onScreen m then
        match Page.step (props m) ev' (page m) with
        | Some pg' => Some {| props := props m; page := pg';
                              owners := owners m;
                              onScreen := stays m (props m) pg' |}
        | None => None
        end
      else None
  end.

Fixpoint steps (evs : list Event) (m : Mounted) : option Mounted :=
  match evs with
  | [] => Some m
  | ev :: evs' =>
      match step ev m with
      | Some m' => steps evs' m'
      | None => None
      end
  end.

(** What a component mounted with some props can get to, its props
    changing on the way. *)
Definition reachable (m : Mounted) : Prop :=
  exists p0 evs, steps evs (mount p0) = Some m.

(** The component after the events [evs], counted from a mount with [p0]
    (the mount itself if they cannot all happen). *)
Definition after (p0 : ClientFormProps) (evs : list Event) : Mounted :=
  default (mount p0) (steps evs (mount p0)).

(** The submits among the requests in flight. *)
Definition submitsInFlight (pg : Page) : list Request :=
  omap (fun rk => match snd rk with
                  | KHandleSubmit => Some (fst rk)
                  | KFetchClient => None
                  end) (inflight pg).

(** The loads among the requests in flight. *)
Definition loadsInFlight (pg : Page) : list Request :=
  omap (fun rk => match snd rk with
                  | KFetchClient => Some (fst rk)
                  | KHandleSubmit => None
                  end) (inflight pg).

(** What holds of everything a mounted component can get to, whatever its
    props become: every request in flight has an owner; at most one submit
    is in flight, and [submitting] is raised exactly then, with the success
    message cleared; and while the loading indicator is up the state is
    that of the first render, only loads are in flight, no submit was ever
    sent, no timer is armed and the route is the form's. *)
Definition Shape (m : Mounted) : Prop :=
  length (owners m) = length (inflight (page m)) /\
  length (submitsInFlight (page m)) =
    (if submitting (state (page m)) then 1 else 0)%nat /\
  (submitting (state (page m)) = true ->
   success (state (page m)) = JStr "") /\
  (loading (state (page m)) = true ->
   formData (state (page m)) = blankForm /\
   submitting (state (page m)) = false /\
   error (state (page m)) = JStr "" /\
   success (state (page m)) = JStr "" /\
   timers (page m) = [] /\
   location (page m) = None /\
   submitsInFlight (page m) = [] /\
   submitRequests (log (page m)) = []).

(** The edit scenario with a change of props: client 42 is loaded, the
    parent then asks for client 43, and that load fails. *)
Definition editProps43 : ClientFormProps :=
  {| clientId := Some 43; isEditMode := true |}.

Definition refetchAndFail : list Event :=
  [ Of (Settle 0 (Resolved (respond 200 clientBody)));
    Rerender editProps43;
    Of (Settle 0 (Resolved (respond 404 notFoundBody))) ].

(** The edit form asked for client 43 while the load of client 42 is in
    flight. *)
Definition refetching : Mounted := after editProps [Rerender editProps43].

(** The create form filled and submitted; then refused by the server; then
    submitted again. *)
Definition submitted : Mounted := after createProps (map Of fillAndSubmit).



End Live.

(** ** Properties *)

Module Props.
Import ClientForm Page Spec Scenario.

Ltac run_handler :=
  cbv beta iota zeta delta
    [exec completion handleSubmit handleSubmit_resumed fetchClient
     fetchClient_resumed mountEffect handleChange handleCancel runCallback
     clientField try_catch_finally bind ret throw when await_fetch
     await_json prop emit modify setFormData setLoading setSubmitting
     setError setSuccess getFormData];
  cbn [fst snd cell trace formData loading submitting error success app].

Ltac page_simpl :=
  cbn [foldl dispatch state log inflight timers location cell trace
       dropInflight dropTimer resume].

(** *** The handlers, equation by equation *)

Lemma getProp_read v k x k' :
  getProp v k = Some x -> getProp v k' = Some (read v k').
Proof. unfold read. destruct v; cbn; intros; congruence. Qed.

Lemma getProp_truthy v k :
  truthy v = true -> getProp v k = Some (read v k).
Proof. unfold read. destruct v; cbn; intros; congruence. Qed.

Lemma handleSubmit_exec p s :
  handleSubmit p {| cell := s; trace := [] |} =
  (Normal tt,
   {| cell := {| formData := formData s; loading := loading s;
                 submitting := true; error := JStr ""; success := JStr "" |};
      trace := [ PreventDefault;
                 Fetch {| url := if isEditMode p then clientUrl p
                                 else "/api/clients";
                          method := if isEditMode p then PUT else POST;
                          headers := [("Content-Type", "application/json")];
                          body := Some (formData s) |} KHandleSubmit ] |}).
Proof. run_handler. reflexivity. Qed.

Lemma handleSubmit_resumed_success p s r data ok :
  json r = Some data ->
  getProp data "success" = Some ok -> truthy ok = true ->
  handleSubmit_resumed p (Resolved r) {| cell := s; trace := [] |} =
  (Normal tt,
   {| cell := {| formData := if isEditMode p then formData s else blankForm;
                 loading := loading s; submitting := false;
                 error := error s;
                 success := js_or (read data "message")
                                  (JStr "Операция выполнена успешно") |};
      trace := [ SetTimeout (RouterPush "/clients") 2000 ] |}).
Proof.
  intros Hj Hok Ht. run_handler.
  rewrite Hj, Hok, Ht, (getProp_read _ _ _ "message" Hok).
  destruct (isEditMode p); reflexivity.
Qed.

Lemma handleSubmit_resumed_failure p s o m :
  SubmitFailure o m ->
  exists tr,
    handleSubmit_resumed p o {| cell := s; trace := [] |} =
    (Normal tt,
     {| cell := {| formData := formData s; loading := loading s;
                   submitting := false; error := m; success := success s |};
        trace := tr |})
    /\ quiet tr.
Proof.
  unfold quiet.
  intros [r data ok Hj Hok Ht | | r Hj | r data Hj Hok].
  - exists []. run_handler.
    rewrite Hj, Hok, Ht, (getProp_read _ _ _ "message" Hok). eauto.
  - eexists. run_handler. eauto.
  - eexists. run_handler. rewrite Hj. eauto.
  - eexists. run_handler. rewrite Hj, Hok. eauto.
Qed.

(** Every outcome of a submit is a success or one of the failures. *)
Lemma submit_outcome_cases o :
  (exists r data ok,
      o = Resolved r /\ json r = Some data /\
      getProp data "success" = Some ok /\ truthy ok = true)
  \/ exists m, SubmitFailure o m.
Proof.
  destruct o as [|r]; [right; eexists; constructor|].
  destruct (json r) as [data|] eqn:Hj;
    [|right; eexists; apply submit_parse; exact Hj].
  destruct (getProp data "success") as [ok|] eqn:Hok;
    [|right; eexists; eapply submit_null; eauto].
  destruct (truthy ok) eqn:Ht.
  - left. eauto 10.
  - right. eexists. eapply submit_reported; eauto.
Qed.

Lemma fetchClient_resumed_success s r data ok :
  json r = Some data ->
  getProp data "success" = Some ok -> truthy ok = true ->
  truthy (read data "client") = true ->
  let client := read data "client" in
  fetchClient_resumed (Resolved r) {| cell := s; trace := [] |} =
  (Normal tt,
   {| cell :=
        {| formData :=
             list_to_map
               [ ("full_name", read client "full_name");
                 ("email", js_or (read client "email") (JStr ""));
                 ("phone", read client "phone");
                 ("address", js_or (read client "address") (JStr ""));
                 ("passport_number", read client "passport_number");
                 ("passport_issue_date",
                  js_or (read client "passport_issue_date") (JStr ""));
                 ("passport_expiry_date",
                  js_or (read client "passport_expiry_date") (JStr ""));
                 ("driver_license_number",
                  js_or (read client "driver_license_number") (JStr ""));
                 ("driver_license_expiry",
                  js_or (read client "driver_license_expiry") (JStr ""));
                 ("notes", js_or (read client "notes") (JStr "")) ];
           loading := false; submitting := submitting s;
           error := error s; success := success s |};
      trace := [] |}).
Proof.
  intros Hj Hok Ht Hc client. subst client. run_handler.
  rewrite Hj, Hok, Ht, (getProp_read _ _ _ "client" Hok).
  cbv beta iota. rewrite Hc.
  rewrite !(getProp_truthy (read data "client")) by exact Hc.
  reflexivity.
Qed.

Lemma fetchClient_resumed_failure s o m :
  LoadFailure o m ->
  exists tr,
    fetchClient_resumed o {| cell := s; trace := [] |} =
    (Normal tt,
     {| cell := {| formData := formData s; loading := false;
                   submitting := submitting s; error := m;
                   success := success s |};
        trace := tr |})
    /\ quiet tr.
Proof.
  unfold quiet.
  intros [r data ok Hj Hok Ht | r data ok Hj Hok Ht Hc | | r Hj
         | r data Hj Hok].
  - exists []. run_handler.
    rewrite Hj, Hok, Ht. cbv beta iota. rewrite Ht.
    rewrite (getProp_read _ _ _ "message" Hok). eauto.
  - exists []. run_handler.
    rewrite Hj, Hok, Ht, (getProp_read _ _ _ "client" Hok).
    cbv beta iota. rewrite Hc.
    rewrite (getProp_read _ _ _ "message" Hok). eauto.
  - eexists. run_handler. eauto.
  - eexists. run_handler. rewrite Hj. eauto.
  - eexists. run_handler. rewrite Hj, Hok. eauto.
Qed.

(** Every outcome of a load is a success or one of the failures. *)
Lemma load_outcome_cases o :
  (exists r data ok,
      o = Resolved r /\ json r = Some data /\
      getProp data "success" = Some ok /\ truthy ok = true /\
      truthy (read data "client") = true)
  \/ exists m, LoadFailure o m.
Proof.
  destruct o as [|r]; [right; eexists; constructor|].
  destruct (json r) as [data|] eqn:Hj;
    [|right; eexists; apply load_parse; exact Hj].
  destruct (getProp data "success") as [ok|] eqn:Hok;
    [|right; eexists; eapply load_null; eauto].
  destruct (truthy ok) eqn:Ht;
    [|right; eexists; eapply load_reported; eauto].
  destruct (truthy (read data "client")) eqn:Hc.
  - left. eauto 10.
  - right. eexists. eapply load_no_client; eauto.
Qed.


(** *** From handlers to page steps *)

Lemma run_eq m pg c w :
  m {| cell := state pg; trace := [] |} = (c, w) ->
  run m pg =
  foldl dispatch
    {| state := cell w; log := log pg ++ trace w; inflight := inflight pg;
       timers := timers pg; location := location pg |}
    (trace w).
Proof. unfold run. intros ->. reflexivity. Qed.

Lemma settle_submit_success p pg i req r data ok :
  inflight pg !! i = Some (req, KHandleSubmit) ->
  json r = Some data ->
  getProp data "success" = Some ok -> truthy ok = true ->
  step p (Settle i (Resolved r)) pg =
  Some {| state :=
            {| formData := if isEditMode p then formData (state pg)
                           else blankForm;
               loading := loading (state pg); submitting := false;
               error := error (state pg);
               success := js_or (read data "message")
                                (JStr "Операция выполнена успешно") |};
          log := log pg ++ [SetTimeout (RouterPush "/clients") 2000];
          inflight := delete i (inflight pg);
          timers := timers pg ++ [(RouterPush "/clients", 2000)];
          location := location pg |}.
Proof.
  intros Hi Hj Hok Ht. unfold step. rewrite Hi. f_equal.
  erewrite run_eq;
    [|page_simpl; eapply handleSubmit_resumed_success; eassumption].
  reflexivity.
Qed.

Lemma settle_submit_failure p pg i req o m :
  inflight pg !! i = Some (req, KHandleSubmit) ->
  SubmitFailure o m ->
  exists tr,
    step p (Settle i o) pg =
    Some {| state :=
              {| formData := formData (state pg);
                 loading := loading (state pg); submitting := false;
                 error := m; success := success (state pg) |};
            log := log pg ++ tr;
            inflight := delete i (inflight pg);
            timers := timers pg;
            location := location pg |}
    /\ quiet tr.
Proof.
  intros Hi Hf.
  destruct (handleSubmit_resumed_failure p (state pg) o m Hf)
    as (tr & Heq & Hq).
  exists tr. split; [|exact Hq].
  unfold step. rewrite Hi. f_equal.
  erewrite run_eq; [|page_simpl; exact Heq].
  destruct Hq as [-> | (label & err & ->)]; reflexivity.
Qed.

Lemma settle_load_success p pg i req r data ok :
  inflight pg !! i = Some (req, KFetchClient) ->
  json r = Some data ->
  getProp data "success" = Some ok -> truthy ok = true ->
  truthy (read data "client") = true ->
  exists pg',
    step p (Settle i (Resolved r)) pg = Some pg' /\
    state pg' =
      cell (exec (fetchClient_resumed (Resolved r)) (state pg)) /\
    log pg' = log pg /\ inflight pg' = delete i (inflight pg) /\
    timers pg' = timers pg /\ location pg' = location pg.
Proof.
  intros Hi Hj Hok Ht Hc.
  pose proof (fetchClient_resumed_success (state pg) r data ok Hj Hok Ht Hc)
    as Heq. cbv zeta in Heq.
  eexists. split.
  - unfold step. rewrite Hi. reflexivity.
  - erewrite run_eq; [|page_simpl; exact Heq].
    unfold exec. rewrite Heq. page_simpl. cbn [snd cell].
    rewrite app_nil_r. auto.
Qed.

Lemma settle_load_failure p pg i req o m :
  inflight pg !! i = Some (req, KFetchClient) ->
  LoadFailure o m ->
  exists tr,
    step p (Settle i o) pg =
    Some {| state :=
              {| formData := formData (state pg); loading := false;
                 submitting := submitting (state pg); error := m;
                 success := success (state pg) |};
            log := log pg ++ tr;
            inflight := delete i (inflight pg);
            timers := timers pg;
            location := location pg |}
    /\ quiet tr.
Proof.
  intros Hi Hf.
  destruct (fetchClient_resumed_failure (state pg) o m Hf)
    as (tr & Heq & Hq).
  exists tr. split; [|exact Hq].
  unfold step. rewrite Hi. f_equal.
  erewrite run_eq; [|page_simpl; exact Heq].
  destruct Hq as [-> | (label & err & ->)]; reflexivity.
Qed.


(** *** The invariant of reachable pages *)

Lemma Inv_mount p : Inv (mount p).
Proof.
  unfold Inv, mount, run, mountEffect, when, initialState, shouldFetch.
  destruct (isEditMode p); cbn [andb].
  - destruct (match clientId p with Some n => truthy (JNum n) | None => false
              end); run_handler; page_simpl; cbn [loading formData]; eauto.
  - run_handler. page_simpl. cbn [loading]. constructor.
Qed.

Lemma Inv_step p ev pg pg' : Inv pg -> step p ev pg = Some pg' -> Inv pg'.
Proof.
  unfold Inv. intros HI Hs.
  destruct ev as [n v| | |i o|i]; unfold step, render in Hs.
  - (* Change *)
    destruct (location pg); [discriminate|].
    destruct (loading (state pg)) eqn:Hl; [discriminate|].
    destruct (existsb _ _); [|discriminate].
    injection Hs as <-. unfold run. run_handler. page_simpl.
    cbn [loading]. rewrite Hl. exact HI.
  - (* Submit *)
    destruct (location pg); [discriminate|].
    destruct (loading (state pg)) eqn:Hl; [discriminate|].
    destruct (_ && _); [|discriminate].
    injection Hs as <-. unfold run. run_handler. page_simpl.
    cbn [loading]. rewrite Hl. apply Forall_app. split; [exact HI|].
    repeat constructor.
  - (* Cancel *)
    destruct (location pg); [discriminate|].
    destruct (loading (state pg)) eqn:Hl; [discriminate|].
    injection Hs as <-. unfold run. run_handler. page_simpl.
    rewrite Hl. exact HI.
  - (* Settle *)
    assert (Hstep0 : step p (Settle i o) pg = Some pg') by exact Hs.
    clear Hs.
    destruct (inflight pg !! i) as [[req k]|] eqn:Hi;
      [|unfold step in Hstep0; rewrite Hi in Hstep0; discriminate].
    destruct (loading (state pg)) eqn:Hl.
    + destruct HI as (_ & _ & [Hnil | (req' & Hone)]).
      { rewrite Hnil in Hi. discriminate. }
      assert (k = KFetchClient) as ->.
      { rewrite Hone in Hi. destruct i; [|discriminate]. cbn in Hi. congruence. }
      assert (delete i (inflight pg) = []) as Hdel.
      { rewrite Hone in Hi |- *. destruct i; [reflexivity|discriminate]. }
      destruct (load_outcome_cases o)
        as [(r & data & ok & -> & Hj & Hok & Ht & Hc) | (m & Hf)].
      * destruct (settle_load_success p pg i req r data ok Hi Hj Hok Ht Hc)
          as (pg2 & Hstep & Hst & _ & Hin & _).
        rewrite Hstep0 in Hstep. injection Hstep as <-.
        rewrite Hst, Hin, Hdel. unfold exec.
        pose proof (fetchClient_resumed_success (state pg) r data ok
                      Hj Hok Ht Hc) as Heq. cbv zeta in Heq. rewrite Heq.
        cbn [snd cell loading]. constructor.
      * destruct (settle_load_failure p pg i req o m Hi Hf)
          as (tr & Hstep & _).
        rewrite Hstep0 in Hstep. injection Hstep as ->.
        cbn [state loading inflight]. rewrite Hdel. constructor.
    + assert (k = KHandleSubmit) as ->.
      { eapply (proj1 (Forall_lookup _ _)) in HI; [|exact Hi]. exact HI. }
      assert (Forall (fun rk : Request * Continuation =>
                        snd rk = KHandleSubmit) (delete i (inflight pg)))
        as Hdel.
      { apply Forall_delete. exact HI. }
      destruct (submit_outcome_cases o)
        as [(r & data & ok & -> & Hj & Hok & Ht) | (m & Hf)].
      * pose proof (settle_submit_success p pg i req r data ok Hi Hj Hok Ht)
          as Hstep.
        rewrite Hstep0 in Hstep. injection Hstep as ->.
        cbn [state loading inflight]. rewrite Hl. exact Hdel.
      * destruct (settle_submit_failure p pg i req o m Hi Hf)
          as (tr & Hstep & _).
        rewrite Hstep0 in Hstep. injection Hstep as ->.
        cbn [state loading inflight]. rewrite Hl. exact Hdel.
  - (* TimerFires *)
    destruct (timers pg !! i) as [[cb ms]|] eqn:Hi; [|discriminate].
    destruct (loading (state pg)) eqn:Hl.
    + destruct HI as (_ & Hnil & _). rewrite Hnil in Hi. discriminate.
    + injection Hs as <-. destruct cb. unfold run. run_handler. page_simpl.
      rewrite Hl. exact HI.
Qed.


Lemma Inv_steps p evs : forall pg pg',
  Inv pg -> steps p evs pg = Some pg' -> Inv pg'.
Proof.
  induction evs as [|ev evs IH]; intros pg pg' HI Hs; cbn in Hs.
  - congruence.
  - destruct (step p ev pg) as [pg1|] eqn:H1; [|discriminate].
    eapply IH; [|exact Hs]. eapply Inv_step; eassumption.
Qed.

Lemma reachable_Inv p pg : reachable p pg -> Inv pg.
Proof. intros (evs & Hs). eapply Inv_steps; [apply Inv_mount|exact Hs]. Qed.

(** A submit in flight means the loading indicator is down. *)
Lemma submit_inflight_not_loading pg i req :
  Inv pg -> inflight pg !! i = Some (req, KHandleSubmit) ->
  loading (state pg) = false.
Proof.
  unfold Inv. intros HI Hi. destruct (loading (state pg)); [|reflexivity].
  destruct HI as (_ & _ & [Hnil | (req' & Hone)]); rewrite ?Hnil, ?Hone in Hi.
  - discriminate.
  - destruct i; cbn in Hi; [congruence|discriminate].
Qed.

(** A load in flight means the loading indicator is up and the form is in
    its initial state. *)
Lemma load_inflight_blank pg i req :
  Inv pg -> inflight pg !! i = Some (req, KFetchClient) ->
  loading (state pg) = true /\ formData (state pg) = blankForm.
Proof.
  unfold Inv. intros HI Hi. destruct (loading (state pg)).
  - split; [reflexivity|]. apply HI.
  - eapply (proj1 (Forall_lookup _ _)) in HI; [|exact Hi]. discriminate.
Qed.

(** *** Facts about values and the blank form *)

Lemma js_or_truthy a b : truthy b = true -> truthy (js_or a b) = true.
Proof. unfold js_or. destruct (truthy a) eqn:Ha; auto. Qed.

Lemma js_or_text_or_absent v :
  textOrAbsent v -> js_or v (JStr "") = normalized v.
Proof.
  destruct v as [| |b|n|s|l|m]; cbn; try tauto.
  intros _. unfold js_or. cbn. destruct (String.eqb s "") eqn:E; cbn.
  - apply String.eqb_eq in E. congruence.
  - reflexivity.
Qed.

Lemma blankForm_lookup k :
  k ∈ fieldNames -> blankForm !! k = Some (JStr "").
Proof.
  unfold fieldNames. intros H.
  repeat (apply elem_of_cons in H as [-> | H]; [vm_compute; reflexivity|]).
  apply elem_of_nil in H. contradiction.
Qed.

Lemma blankForm_lookup_other k :
  k ∉ fieldNames -> blankForm !! k = None.
Proof.
  intros H. unfold blankForm. apply not_elem_of_list_to_map_1. exact H.
Qed.

Lemma banner_truthy v : truthy v = true -> banner v = Some v.
Proof. unfold banner. intros ->. reflexivity. Qed.


(** *** Create or update *)

(** C1, as stated, fails: mounted in create mode with an identifier
    ([clientId = 42], [isEditMode = false]), [handleSubmit] sends
    [POST /api/clients], not [PUT /api/clients/42]. *)
Lemma submit_by_identifier_counterexample :
  requestLines
    (trace (exec (handleSubmit {| clientId := Some 42; isEditMode := false |})
                 (initialState {| clientId := Some 42;
                                  isEditMode := false |})))
  <> [requestLineByIdentifier {| clientId := Some 42; isEditMode := false |}].
Proof. vm_compute. discriminate. Qed.

(** C1 (amended): [handleSubmit] issues exactly one request and chooses
    between create and update by the [isEditMode] flag given at mount: with
    [isEditMode] false it sends [POST /api/clients], with [isEditMode] true
    it sends [PUT /api/clients/{clientId}], the identifier being
    interpolated as a template literal does (the text [undefined] when none
    was given).  The body is the current field set. *)
Theorem submit_request_by_mode (p : ClientFormProps) (s : State) :
  trace (exec (handleSubmit p) s) =
  [ PreventDefault;
    Fetch {| url := if isEditMode p
                    then "/api/clients/" ++
                         match clientId p with
                         | Some n => toStr (JNum n)
                         | None => "undefined"
                         end
                    else "/api/clients";
             method := if isEditMode p then PUT else POST;
             headers := [("Content-Type", "application/json")];
             body := Some (formData s) |} KHandleSubmit ]
  /\ requestLines (trace (exec (handleSubmit p) s)) =
     [ if isEditMode p
       then (PUT, "/api/clients/" ++
                  match clientId p with
                  | Some n => toStr (JNum n)
                  | None => "undefined"
                  end)
       else (POST, "/api/clients") ].
Proof.
  unfold exec. rewrite handleSubmit_exec. cbn [snd trace].
  unfold clientUrl, requestLines.
  destruct (isEditMode p), (clientId p); split; reflexivity.
Qed.

(** Where the flag and the identifier agree, the request is the one the
    specification names. *)
Lemma submit_request_by_identifier (p : ClientFormProps) (s : State) :
  isEditMode p = bool_decide (is_Some (clientId p)) ->
  requestLines (trace (exec (handleSubmit p) s)) =
  [requestLineByIdentifier p].
Proof.
  intros He. unfold exec. rewrite handleSubmit_exec. cbn [snd trace].
  unfold requestLines, requestLineByIdentifier, clientUrl. rewrite He.
  destruct (clientId p); reflexivity.
Qed.

(** *** Successful submits *)

(** C2: when a submit in create mode settles with a body reporting success,
    the success message is the server's or, failing that, the default, and
    its banner is rendered; the form data is the blank form, all ten fields
    holding the empty string; exactly one timer is armed, of 2000 ms, whose
    callback navigates to [/clients]; nothing navigates before it fires. *)
Theorem create_success_resets_and_redirects
    (p : ClientFormProps) (pg : Page) (i : nat) (req : Request)
    (r : Response) (data ok : JsValue) :
  isEditMode p = false ->
  reachable p pg ->
  inflight pg !! i = Some (req, KHandleSubmit) ->
  json r = Some data ->
  getProp data "success" = Some ok -> truthy ok = true ->
  exists pg',
    step p (Settle i (Resolved r)) pg = Some pg' /\
    success (state pg') =
      js_or (read data "message") (JStr "Операция выполнена успешно") /\
    successBannerOf (render p (state pg')) = Some (success (state pg')) /\
    formData (state pg') = blankForm /\
    (forall k, k ∈ fieldNames -> formData (state pg') !! k = Some (JStr "")) /\
    (forall k, k ∉ fieldNames -> formData (state pg') !! k = None) /\
    timers pg' = (timers pg ++ [(RouterPush "/clients", 2000)])%list /\
    location pg' = location pg /\
    trace (exec (runCallback (RouterPush "/clients")) (state pg')) =
      [Navigate "/clients"].
Proof.
  intros He Hr Hi Hj Hok Ht.
  pose proof (submit_inflight_not_loading pg i req (reachable_Inv p pg Hr) Hi)
    as Hl.
  eexists. split; [eapply settle_submit_success; eassumption|].
  cbn [state success formData timers location]. rewrite He.
  repeat split.
  - unfold render. cbn [loading success]. rewrite Hl.
    cbn [successBannerOf]. apply banner_truthy, js_or_truthy. reflexivity.
  - apply blankForm_lookup.
  - apply blankForm_lookup_other.
Qed.

(** C3: when a submit in edit mode settles with a body reporting success,
    the form data is left as it was, and the same single timer of 2000 ms to
    [/clients] is armed as in the create case. *)
Theorem update_success_keeps_fields_and_redirects
    (p : ClientFormProps) (pg : Page) (i : nat) (req : Request)
    (r : Response) (data ok : JsValue) :
  isEditMode p = true ->
  inflight pg !! i = Some (req, KHandleSubmit) ->
  json r = Some data ->
  getProp data "success" = Some ok -> truthy ok = true ->
  exists pg',
    step p (Settle i (Resolved r)) pg = Some pg' /\
    formData (state pg') = formData (state pg) /\
    success (state pg') =
      js_or (read data "message") (JStr "Операция выполнена успешно") /\
    timers pg' = (timers pg ++ [(RouterPush "/clients", 2000)])%list /\
    location pg' = location pg /\
    trace (exec (runCallback (RouterPush "/clients")) (state pg')) =
      [Navigate "/clients"].
Proof.
  intros He Hi Hj Hok Ht.
  eexists. split; [eapply settle_submit_success; eassumption|].
  cbn [state success formData timers location]. rewrite He.
  repeat split.
Qed.


(** *** Loads *)

(** C4: when the load settles with a body that reports success and carries
    a client, the required fields hold the server's values as they are, each
    optional field that the server gave as a string, as [null] or not at all
    holds that value with [null] and absent turned into the empty string
    (in general an optional field holds [value || '']), the form has no
    other property, and the loading indicator goes down. *)
Theorem load_success_populates_form
    (p : ClientFormProps) (pg : Page) (i : nat) (req : Request)
    (r : Response) (data ok : JsValue) :
  inflight pg !! i = Some (req, KFetchClient) ->
  json r = Some data ->
  getProp data "success" = Some ok -> truthy ok = true ->
  truthy (read data "client") = true ->
  exists pg',
    step p (Settle i (Resolved r)) pg = Some pg' /\
    (forall k, k ∈ requiredFields ->
       formData (state pg') !! k = Some (read (read data "client") k)) /\
    (forall k, k ∈ optionalFields ->
       textOrAbsent (read (read data "client") k) ->
       formData (state pg') !! k =
         Some (normalized (read (read data "client") k))) /\
    (forall k, k ∈ optionalFields ->
       formData (state pg') !! k =
         Some (js_or (read (read data "client") k) (JStr ""))) /\
    (forall k, k ∉ fieldNames -> formData (state pg') !! k = None) /\
    loading (state pg') = false /\
    error (state pg') = error (state pg).
Proof.
  intros Hi Hj Hok Ht Hc.
  destruct (settle_load_success p pg i req r data ok Hi Hj Hok Ht Hc)
    as (pg' & Hstep & Hst & _).
  exists pg'. split; [exact Hstep|]. rewrite Hst. unfold exec.
  pose proof (fetchClient_resumed_success (state pg) r data ok Hj Hok Ht Hc)
    as Heq. cbv zeta in Heq. rewrite Heq. clear Heq.
  cbn [snd cell formData loading error].
  set (client := read data "client").
  assert (forall k, k ∈ optionalFields ->
            (list_to_map
               [ ("full_name", read client "full_name");
                 ("email", js_or (read client "email") (JStr ""));
                 ("phone", read client "phone");
                 ("address", js_or (read client "address") (JStr ""));
                 ("passport_number", read client "passport_number");
                 ("passport_issue_date",
                  js_or (read client "passport_issue_date") (JStr ""));
                 ("passport_expiry_date",
                  js_or (read client "passport_expiry_date") (JStr ""));
                 ("driver_license_number",
                  js_or (read client "driver_license_number") (JStr ""));
                 ("driver_license_expiry",
                  js_or (read client "driver_license_expiry") (JStr ""));
                 ("notes", js_or (read client "notes") (JStr "")) ]
             : ClientFormData) !! k = Some (js_or (read client k) (JStr "")))
    as Hopt.
  { unfold optionalFields. intros k H.
    repeat (apply elem_of_cons in H as [-> | H]; [reflexivity|]).
    apply elem_of_nil in H. contradiction. }
  split; [|split; [|split; [|split; [|split; reflexivity]]]].
  - unfold requiredFields. intros k H.
    repeat (apply elem_of_cons in H as [-> | H]; [reflexivity|]).
    apply elem_of_nil in H. contradiction.
  - intros k H Hty. rewrite <- (js_or_text_or_absent _ Hty). apply Hopt, H.
  - exact Hopt.
  - intros k H. apply not_elem_of_list_to_map_1. exact H.
Qed.

Lemma LoadFailure_truthy o m : LoadFailure o m -> truthy m = true.
Proof. intros []; try reflexivity; apply js_or_truthy; reflexivity. Qed.

Lemma SubmitFailure_truthy o m : SubmitFailure o m -> truthy m = true.
Proof. intros []; try reflexivity; apply js_or_truthy; reflexivity. Qed.

(** [fetchClient] ends with the loading flag down, whatever happened. *)
Lemma fetchClient_resumed_finally o s :
  completion (fetchClient_resumed o) s = Normal tt /\
  loading (cell (exec (fetchClient_resumed o) s)) = false.
Proof.
  unfold completion, exec.
  destruct (load_outcome_cases o)
    as [(r & data & ok & -> & Hj & Hok & Ht & Hc) | (m & Hf)].
  - pose proof (fetchClient_resumed_success s r data ok Hj Hok Ht Hc) as Heq.
    cbv zeta in Heq. rewrite Heq. split; reflexivity.
  - destruct (fetchClient_resumed_failure s o m Hf) as (tr & -> & _).
    split; reflexivity.
Qed.

(** [handleSubmit] ends with the submitting flag down, whatever happened. *)
Lemma handleSubmit_resumed_finally p o s :
  completion (handleSubmit_resumed p o) s = Normal tt /\
  submitting (cell (exec (handleSubmit_resumed p o) s)) = false.
Proof.
  unfold completion, exec.
  destruct (submit_outcome_cases o)
    as [(r & data & ok & -> & Hj & Hok & Ht) | (m & Hf)].
  - rewrite (handleSubmit_resumed_success p s r data ok Hj Hok Ht).
    split; reflexivity.
  - destruct (handleSubmit_resumed_failure p s o m Hf) as (tr & -> & _).
    split; reflexivity.
Qed.

(** *** Failed submits *)

(** C6: when a submit fails (the body reports failure, or something is
    thrown), no timer is armed and nothing navigates, the form data and the
    success message are as they were, and [error] holds the server's message
    when there is one and otherwise a fallback, its banner being rendered;
    the fallback of the thrown case is a text of its own. *)
Theorem failed_submit_changes_nothing
    (p : ClientFormProps) (pg : Page) (i : nat) (req : Request)
    (o : FetchOutcome) (m : JsValue) :
  reachable p pg ->
  inflight pg !! i = Some (req, KHandleSubmit) ->
  SubmitFailure o m ->
  exists pg',
    step p (Settle i o) pg = Some pg' /\
    formData (state pg') = formData (state pg) /\
    timers pg' = timers pg /\
    location pg' = location pg /\
    (forall e, e ∈ log pg' -> e ∈ log pg \/ navigates e = false) /\
    error (state pg') = m /\
    errorBannerOf (render p (state pg')) = Some m /\
    success (state pg') = success (state pg) /\
    JStr "Произошла ошибка" <> JStr "Произошла ошибка при отправке данных".
Proof.
  intros Hr Hi Hf.
  pose proof (submit_inflight_not_loading pg i req (reachable_Inv p pg Hr) Hi)
    as Hl.
  destruct (settle_submit_failure p pg i req o m Hi Hf) as (tr & Hstep & Hq).
  eexists. split; [exact Hstep|].
  cbn [state formData error success timers location log].
  repeat split.
  - intros e He. apply elem_of_app in He as [He | He]; [left; exact He|].
    right. destruct Hq as [-> | (label & err & ->)].
    + apply elem_of_nil in He. contradiction.
    + apply list_elem_of_singleton in He. subst e. reflexivity.
  - unfold render. cbn [loading error errorBannerOf]. rewrite Hl.
    apply banner_truthy. eapply SubmitFailure_truthy. exact Hf.
  - discriminate.
Qed.


(** *** The submitting flag *)

(** C7: [handleSubmit] starts by clearing [error] and [success] and raising
    [submitting], so neither banner is rendered; when the request settles,
    whatever the outcome and whatever the state by then, it completes
    normally with [submitting] lowered.  On the page: a submit event finds
    [submitting] lowered and leaves it raised with one more request in
    flight, and every submit in flight can settle, with any outcome, and
    then leaves [submitting] lowered. *)
Theorem submit_enters_and_exits_submitting
    (p : ClientFormProps) (s s' : State) (o : FetchOutcome) (pg : Page) :
  (completion (handleSubmit p) s = Normal tt /\
   error (cell (exec (handleSubmit p) s)) = JStr "" /\
   success (cell (exec (handleSubmit p) s)) = JStr "" /\
   submitting (cell (exec (handleSubmit p) s)) = true /\
   banner (error (cell (exec (handleSubmit p) s))) = None /\
   banner (success (cell (exec (handleSubmit p) s))) = None) /\
  (completion (handleSubmit_resumed p o) s' = Normal tt /\
   submitting (cell (exec (handleSubmit_resumed p o) s')) = false) /\
  (forall pg',
     step p Submit pg = Some pg' ->
     submitting (state pg) = false /\
     submitting (state pg') = true /\
     error (state pg') = JStr "" /\ success (state pg') = JStr "" /\
     exists req, inflight pg' = (inflight pg ++ [(req, KHandleSubmit)])%list) /\
  (forall i req,
     inflight pg !! i = Some (req, KHandleSubmit) ->
     exists pg',
       step p (Settle i o) pg = Some pg' /\
       submitting (state pg') = false /\
       inflight pg' = delete i (inflight pg)).
Proof.
  split; [|split; [|split]].
  - unfold completion, exec. rewrite handleSubmit_exec. repeat split.
  - apply handleSubmit_resumed_finally.
  - intros pg' Hs. unfold step, render in Hs.
    destruct (location pg); [discriminate|].
    destruct (loading (state pg)); [discriminate|].
    destruct (submitting (state pg)); [discriminate|].
    cbn [negb andb] in Hs.
    destruct (checkValidity _); [|discriminate].
    injection Hs as <-.
    erewrite run_eq; [|apply handleSubmit_exec]. page_simpl.
    cbn [submitting error success]. repeat split. eexists. reflexivity.
  - intros i req Hi.
    destruct (submit_outcome_cases o)
      as [(r & data & ok & -> & Hj & Hok & Ht) | (m & Hf)].
    + eexists. split; [eapply settle_submit_success; eassumption|].
      split; reflexivity.
    + destruct (settle_submit_failure p pg i req o m Hi Hf)
        as (tr & Hstep & _).
      eexists. split; [exact Hstep|]. split; reflexivity.
Qed.

(** *** The required-field gate *)

Lemma checkValidity_required fd k :
  checkValidity (renderInputs fd) = true ->
  k ∈ requiredFields -> domValue (field fd k) <> "".
Proof.
  unfold checkValidity, renderInputs, valueMissing, requiredFields.
  cbn [forallb required value andb negb].
  intros Hv H.
  repeat (apply andb_prop in Hv as [? Hv]).
  repeat (apply elem_of_cons in H as [-> | H];
          [intros E;
           match goal with
           | Hn : negb (String.eqb (domValue (field fd ?f)) "") = true |- _ =>
               rewrite E in Hn; discriminate Hn
           end|]).
  apply elem_of_nil in H. contradiction.
Qed.

(** The handler itself has no guard: called on any state it issues the
    request. *)
Lemma handleSubmit_unguarded p s :
  exists req, Fetch req KHandleSubmit ∈ trace (exec (handleSubmit p) s).
Proof.
  unfold exec. rewrite handleSubmit_exec. cbn [snd trace].
  eexists. apply elem_of_cons. right. apply elem_of_cons. left. reflexivity.
Qed.

(** What one step adds to the log: a submit request only on a [Submit]
    event that passed validation, with the form data of that moment. *)
Lemma step_log p ev pg pg' :
  step p ev pg = Some pg' ->
  exists tr,
    log pg' = (log pg ++ tr)%list /\
    forall req, Fetch req KHandleSubmit ∈ tr ->
      checkValidity (renderInputs (formData (state pg))) = true /\
      body req = Some (formData (state pg)).
Proof.
  intros Hs.
  destruct ev as [n v| | |i o|i].
  - unfold step, render in Hs.
    destruct (location pg); [discriminate|].
    destruct (loading (state pg)); [discriminate|].
    destruct (existsb _ _); [|discriminate].
    injection Hs as <-. exists []. split; [reflexivity|].
    intros req H. apply elem_of_nil in H. contradiction.
  - unfold step, render in Hs.
    destruct (location pg); [discriminate|].
    destruct (loading (state pg)); [discriminate|].
    destruct (negb (submitting (state pg))); [|discriminate].
    cbn [andb] in Hs.
    destruct (checkValidity _) eqn:Hv; [|discriminate].
    injection Hs as <-.
    erewrite run_eq; [|apply handleSubmit_exec]. page_simpl.
    eexists. split; [reflexivity|].
    intros req H.
    apply elem_of_cons in H as [H | H]; [discriminate|].
    apply list_elem_of_singleton in H. injection H as ->.
    split; reflexivity.
  - unfold step, render in Hs.
    destruct (location pg); [discriminate|].
    destruct (loading (state pg)); [discriminate|].
    injection Hs as <-. exists [Navigate "/clients"]. split; [reflexivity|].
    intros req H. apply list_elem_of_singleton in H. discriminate.
  - destruct (inflight pg !! i) as [[rq k]|] eqn:Hi;
      [|unfold step in Hs; rewrite Hi in Hs; discriminate].
    destruct k.
    + destruct (load_outcome_cases o)
        as [(r & data & ok & -> & Hj & Hok & Ht & Hc) | (m & Hf)].
      * destruct (settle_load_success p pg i rq r data ok Hi Hj Hok Ht Hc)
          as (pg2 & Hstep & _ & Hlog & _).
        rewrite Hs in Hstep. injection Hstep as <-.
        exists []. rewrite app_nil_r. split; [exact Hlog|].
        intros req H. apply elem_of_nil in H. contradiction.
      * destruct (settle_load_failure p pg i rq o m Hi Hf)
          as (tr & Hstep & Hq).
        rewrite Hs in Hstep. injection Hstep as ->.
        exists tr. split; [reflexivity|].
        intros req H. destruct Hq as [-> | (label & err & ->)].
        -- apply elem_of_nil in H. contradiction.
        -- apply list_elem_of_singleton in H. discriminate.
    + destruct (submit_outcome_cases o)
        as [(r & data & ok & -> & Hj & Hok & Ht) | (m & Hf)].
      * pose proof (settle_submit_success p pg i rq r data ok Hi Hj Hok Ht)
          as Hstep.
        rewrite Hs in Hstep. injection Hstep as ->.
        eexists. split; [reflexivity|].
        intros req H. apply list_elem_of_singleton in H. discriminate.
      * destruct (settle_submit_failure p pg i rq o m Hi Hf)
          as (tr & Hstep & Hq).
        rewrite Hs in Hstep. injection Hstep as ->.
        exists tr. split; [reflexivity|].
        intros req H. destruct Hq as [-> | (label & err & ->)].
        -- apply elem_of_nil in H. contradiction.
        -- apply list_elem_of_singleton in H. discriminate.
  - unfold step in Hs.
    destruct (timers pg !! i) as [[cb ms]|]; [|discriminate].
    injection Hs as <-. destruct cb as [path].
    exists [Navigate path]. split; [reflexivity|].
    intros req H. apply list_elem_of_singleton in H. discriminate.
Qed.

Lemma mount_log p req : Fetch req KHandleSubmit ∉ log (mount p).
Proof.
  unfold mount, run, mountEffect, when.
  destruct (shouldFetch p); run_handler; page_simpl; cbn [app].
  - intros H. apply list_elem_of_singleton in H. discriminate.
  - apply not_elem_of_nil.
Qed.

Lemma steps_log p evs : forall pg pg',
  steps p evs pg = Some pg' ->
  (forall req, Fetch req KHandleSubmit ∈ log pg -> validBody req) ->
  forall req, Fetch req KHandleSubmit ∈ log pg' -> validBody req.
Proof.
  induction evs as [|ev evs IH]; intros pg pg' Hs Hlog; cbn in Hs.
  - injection Hs as <-. exact Hlog.
  - destruct (step p ev pg) as [pg1|] eqn:H1; [|discriminate].
    apply (IH pg1 pg' Hs).
    destruct (step_log p ev pg pg1 H1) as (tr & Heq & Htr).
    intros req H. rewrite Heq in H.
    apply elem_of_app in H as [H | H]; [apply Hlog; exact H|].
    destruct (Htr req H) as [Hv Hb].
    exists (formData (state pg)). split; [exact Hb|].
    intros k Hk. apply checkValidity_required; assumption.
Qed.

(** C8: on a page where a required field ([full_name], [phone] or
    [passport_number]) is the empty string, the submit event is not
    delivered, so [handleSubmit] does not run and no request is made; and
    every submit request a mounted form has ever made carried a body whose
    required fields were all non-empty.  The gate is the browser's check of
    the [required] attributes the component renders, not a test inside
    [handleSubmit]. *)
Theorem empty_required_field_blocks_submit
    (p : ClientFormProps) (pg : Page) :
  (forall k, k ∈ requiredFields ->
     field (formData (state pg)) k = JStr "" ->
     step p Submit pg = None) /\
  (reachable p pg ->
   forall req, Fetch req KHandleSubmit ∈ log pg -> validBody req).
Proof.
  split.
  - intros k Hk He. unfold step, render.
    destruct (location pg); [reflexivity|].
    destruct (loading (state pg)); [reflexivity|].
    destruct (checkValidity (renderInputs (formData (state pg)))) eqn:Hv.
    + exfalso. apply (checkValidity_required _ k Hv Hk).
      rewrite He. reflexivity.
    + rewrite andb_false_r. reflexivity.
  - intros (evs & Hs). eapply steps_log; [exact Hs|].
    intros req H. exfalso. exact (mount_log p req H).
Qed.


(** *** The HTTP status *)

(** C9: two responses with the same parsed body are told apart by neither
    handler, whatever their status codes; and for a body that parses to a
    non-null value the branch taken is decided by the truthiness of its
    [success] property alone (together with that of [client], for a load):
    a submit arms the redirect exactly when [success] is truthy and sets
    the error otherwise, a load fills the form exactly when [success] and
    [client] are truthy and sets the error otherwise. *)
Theorem outcome_ignores_http_status
    (p : ClientFormProps) (s : State) (r1 r2 : Response) :
  json r1 = json r2 ->
  fetchClient_resumed (Resolved r1) {| cell := s; trace := [] |} =
    fetchClient_resumed (Resolved r2) {| cell := s; trace := [] |} /\
  handleSubmit_resumed p (Resolved r1) {| cell := s; trace := [] |} =
    handleSubmit_resumed p (Resolved r2) {| cell := s; trace := [] |} /\
  forall data ok,
    json r1 = Some data -> getProp data "success" = Some ok ->
    trace (exec (handleSubmit_resumed p (Resolved r1)) s) =
      (if truthy ok then [SetTimeout (RouterPush "/clients") 2000] else []) /\
    error (cell (exec (handleSubmit_resumed p (Resolved r1)) s)) =
      (if truthy ok then error s
       else js_or (read data "message") (JStr "Произошла ошибка")) /\
    error (cell (exec (fetchClient_resumed (Resolved r1)) s)) =
      (if truthy ok && truthy (read data "client") then error s
       else js_or (read data "message")
                  (JStr "Не удалось загрузить данные клиента")) /\
    (truthy ok && truthy (read data "client") = false ->
     formData (cell (exec (fetchClient_resumed (Resolved r1)) s)) =
       formData s).
Proof.
  intros Hj. split; [|split].
  - run_handler. rewrite Hj. reflexivity.
  - run_handler. rewrite Hj. reflexivity.
  - intros data ok Hd Hok. unfold exec.
    destruct (truthy ok) eqn:Ht.
    + rewrite (handleSubmit_resumed_success p s r1 data ok Hd Hok Ht).
      cbn [snd cell trace error andb].
      destruct (truthy (read data "client")) eqn:Hc.
      * pose proof (fetchClient_resumed_success s r1 data ok Hd Hok Ht Hc)
          as Heq. cbv zeta in Heq. rewrite Heq.
        repeat split. discriminate.
      * destruct (fetchClient_resumed_failure s (Resolved r1) _
                    (load_no_client r1 data ok Hd Hok Ht Hc))
          as (tr & -> & _).
        repeat split.
    + destruct (handleSubmit_resumed_failure p s (Resolved r1) _
                  (submit_reported r1 data ok Hd Hok Ht))
        as (tr & Heq & Hq).
      assert (tr = []) as ->.
      { revert Heq. run_handler.
        rewrite Hd, Hok, Ht, (getProp_read _ _ _ "message" Hok).
        intros [= <-]. reflexivity. }
      rewrite Heq.
      destruct (fetchClient_resumed_failure s (Resolved r1) _
                  (load_reported r1 data ok Hd Hok Ht))
        as (tr & -> & _).
      repeat split.
Qed.

(** *** Edit mode without an identifier *)

Lemma mount_without_fetch p :
  shouldFetch p = false ->
  mount p =
  {| state := initialState p; log := []; inflight := []; timers := [];
     location := None |}.
Proof.
  intros Hf. unfold mount, run, mountEffect, when. rewrite Hf. reflexivity.
Qed.

(** On a page that shows the loading indicator with nothing in flight and no
    timer armed, no event can happen. *)
Lemma stuck_page p pg ev :
  loading (state pg) = true -> inflight pg = [] -> timers pg = [] ->
  step p ev pg = None.
Proof.
  intros Hl Hi Ht. destruct ev; unfold step, render; rewrite ?Hl, ?Hi, ?Ht;
    try reflexivity; destruct (location pg); reflexivity.
Qed.

(** C10: mounted with [isEditMode] true and [clientId] absent or [0], the
    component issues no request and no event can ever happen to it: every
    page it can get to is the page of the mount, with [loading] true, the
    loading indicator rendered, nothing in flight and an empty log. *)
Theorem edit_mode_without_id_stays_loading
    (p : ClientFormProps) (pg : Page) :
  isEditMode p = true ->
  clientId p = None \/ clientId p = Some 0 ->
  reachable p pg ->
  pg = mount p /\
  loading (state pg) = true /\
  render p (state pg) = LoadingView /\
  log pg = [] /\ inflight pg = [] /\ timers pg = [] /\
  forall ev, step p ev pg = None.
Proof.
  intros He Hid (evs & Hs).
  assert (shouldFetch p = false) as Hf.
  { unfold shouldFetch. destruct Hid as [-> | ->]; rewrite He; reflexivity. }
  pose proof (mount_without_fetch p Hf) as Hm.
  assert (forall ev, step p ev (mount p) = None) as Hstuck.
  { intros ev. apply stuck_page; rewrite Hm; cbn; auto. }
  assert (pg = mount p) as ->.
  { destruct evs as [|ev evs]; cbn in Hs; [congruence|].
    rewrite Hstuck in Hs. discriminate. }
  split; [reflexivity|]. rewrite Hm at 1 2 3 4 5.
  unfold render. cbn [state log inflight timers initialState loading].
  rewrite He. repeat split. exact Hstuck.
Qed.


(** *** The scenarios, run *)

Lemma fillAndSubmit_page :
  steps createProps fillAndSubmit (mount createProps) =
  Some (pageAfter createProps fillAndSubmit)
  /\ inflight (pageAfter createProps fillAndSubmit) !! 0%nat =
     Some (createRequest, KHandleSubmit).
Proof. split; vm_compute; reflexivity. Qed.

Lemma loadAndSubmit_page :
  steps editProps loadAndSubmit (mount editProps) =
  Some (pageAfter editProps loadAndSubmit)
  /\ inflight (pageAfter editProps loadAndSubmit) !! 0%nat =
     Some (updateRequest, KHandleSubmit).
Proof. split; vm_compute; reflexivity. Qed.

Lemma mount_edit_page :
  inflight (mount editProps) !! 0%nat = Some (loadRequest, KFetchClient).
Proof. vm_compute. reflexivity. Qed.


(** *** The theorems at the scenarios *)

(** C2 at the create scenario: the form is filled and submitted, and the
    server answers [{success: true, message: "Created"}]. *)
Lemma create_success_resets_and_redirects_witness :
  (isEditMode createProps = false /\
   reachable createProps (pageAfter createProps fillAndSubmit) /\
   truthy (JBool true) = true) /\
  exists pg',
    step createProps (Settle 0 (Resolved (respond 201 createdBody)))
         (pageAfter createProps fillAndSubmit) = Some pg' /\
    success (state pg') = JStr "Created" /\
    successBannerOf (render createProps (state pg')) =
      Some (success (state pg')) /\
    formData (state pg') = blankForm /\
    (forall k, k ∈ fieldNames -> formData (state pg') !! k = Some (JStr "")) /\
    (forall k, k ∉ fieldNames -> formData (state pg') !! k = None) /\
    timers pg' = [(RouterPush "/clients", 2000)] /\
    location pg' = None /\
    trace (exec (runCallback (RouterPush "/clients")) (state pg')) =
      [Navigate "/clients"].
Proof.
  assert (reachable createProps (pageAfter createProps fillAndSubmit)) as Hr.
  { exists fillAndSubmit. exact (proj1 fillAndSubmit_page). }
  split; [exact (conj eq_refl (conj Hr eq_refl))|].
  exact (create_success_resets_and_redirects createProps
           (pageAfter createProps fillAndSubmit) 0 createRequest
           (respond 201 createdBody) createdBody (JBool true)
           eq_refl Hr (proj2 fillAndSubmit_page) eq_refl eq_refl eq_refl).
Defined.

(** C3 at the edit scenario: client 42 is loaded and submitted unchanged. *)
Lemma update_success_keeps_fields_and_redirects_witness :
  (isEditMode editProps = true /\
   inflight (pageAfter editProps loadAndSubmit) !! 0%nat =
     Some (updateRequest, KHandleSubmit)) /\
  exists pg',
    step editProps (Settle 0 (Resolved (respond 200 createdBody)))
         (pageAfter editProps loadAndSubmit) = Some pg' /\
    formData (state pg') = formData (state (pageAfter editProps loadAndSubmit))
    /\ success (state pg') = JStr "Created" /\
    timers pg' = [(RouterPush "/clients", 2000)] /\
    location pg' = None /\
    trace (exec (runCallback (RouterPush "/clients")) (state pg')) =
      [Navigate "/clients"].
Proof.
  split; [split; [reflexivity | exact (proj2 loadAndSubmit_page)]|].
  exact (update_success_keeps_fields_and_redirects editProps
           (pageAfter editProps loadAndSubmit) 0 updateRequest
           (respond 200 createdBody) createdBody (JBool true)
           eq_refl (proj2 loadAndSubmit_page) eq_refl eq_refl eq_refl).
Defined.

(** C4 at the load scenario: client 42 comes back with [email: null]. *)
Lemma load_success_populates_form_witness :
  (inflight (mount editProps) !! 0%nat = Some (loadRequest, KFetchClient) /\
   truthy (read clientBody "client") = true) /\
  exists pg',
    step editProps (Settle 0 (Resolved (respond 200 clientBody)))
         (mount editProps) = Some pg' /\
    (forall k, k ∈ requiredFields ->
       formData (state pg') !! k = Some (read (read clientBody "client") k)) /\
    (forall k, k ∈ optionalFields ->
       textOrAbsent (read (read clientBody "client") k) ->
       formData (state pg') !! k =
         Some (normalized (read (read clientBody "client") k))) /\
    (forall k, k ∈ optionalFields ->
       formData (state pg') !! k =
         Some (js_or (read (read clientBody "client") k) (JStr ""))) /\
    (forall k, k ∉ fieldNames -> formData (state pg') !! k = None) /\
    loading (state pg') = false /\
    error (state pg') = JStr "".
Proof.
  split; [split; [exact mount_edit_page | reflexivity]|].
  exact (load_success_populates_form editProps (mount editProps) 0
           loadRequest (respond 200 clientBody) clientBody (JBool true)
           mount_edit_page eq_refl eq_refl eq_refl eq_refl).
Defined.

(** C6 at a refused create: the server answers
    [{success: false, message: "Duplicate passport"}]. *)
Lemma failed_submit_changes_nothing_witness :
  (reachable createProps (pageAfter createProps fillAndSubmit) /\
   inflight (pageAfter createProps fillAndSubmit) !! 0%nat =
     Some (createRequest, KHandleSubmit) /\
   SubmitFailure (Resolved (respond 200 duplicateBody))
                 (JStr "Duplicate passport")) /\
  exists pg',
    step createProps (Settle 0 (Resolved (respond 200 duplicateBody)))
         (pageAfter createProps fillAndSubmit) = Some pg' /\
    formData (state pg') = filledForm /\
    timers pg' = [] /\
    location pg' = None /\
    (forall e, e ∈ log pg' ->
       e ∈ log (pageAfter createProps fillAndSubmit) \/ navigates e = false) /\
    error (state pg') = JStr "Duplicate passport" /\
    errorBannerOf (render createProps (state pg')) =
      Some (JStr "Duplicate passport") /\
    success (state pg') = JStr "" /\
    JStr "Произошла ошибка" <> JStr "Произошла ошибка при отправке данных".
Proof.
  assert (reachable createProps (pageAfter createProps fillAndSubmit)) as Hr.
  { exists fillAndSubmit. exact (proj1 fillAndSubmit_page). }
  assert (SubmitFailure (Resolved (respond 200 duplicateBody))
                        (JStr "Duplicate passport")) as Hf.
  { exact (submit_reported (respond 200 duplicateBody) duplicateBody
             (JBool false) eq_refl eq_refl eq_refl). }
  split; [exact (conj Hr (conj (proj2 fillAndSubmit_page) Hf))|].
  exact (failed_submit_changes_nothing createProps
           (pageAfter createProps fillAndSubmit) 0 createRequest
           (Resolved (respond 200 duplicateBody)) (JStr "Duplicate passport")
           Hr (proj2 fillAndSubmit_page) Hf).
Defined.


(** C7 at the create scenario: the submit event on the filled form, and
    the request it left in flight failing at the transport. *)
Lemma submit_enters_and_exits_submitting_witness :
  (step createProps Submit
        (pageAfter createProps
           [ Change "full_name" "Ivanov I.I."; Change "phone" "+70000000000";
             Change "passport_number" "1234 567890" ]) =
   Some (pageAfter createProps fillAndSubmit) /\
   inflight (pageAfter createProps fillAndSubmit) !! 0%nat =
     Some (createRequest, KHandleSubmit)) /\
  submitting (state (pageAfter createProps fillAndSubmit)) = true /\
  exists pg',
    step createProps (Settle 0 Rejected)
         (pageAfter createProps fillAndSubmit) = Some pg' /\
    submitting (state pg') = false /\
    inflight pg' = [].
Proof.
  assert (step createProps Submit
            (pageAfter createProps
               [ Change "full_name" "Ivanov I.I.";
                 Change "phone" "+70000000000";
                 Change "passport_number" "1234 567890" ]) =
          Some (pageAfter createProps fillAndSubmit)) as Hs.
  { vm_compute. reflexivity. }
  split; [exact (conj Hs (proj2 fillAndSubmit_page))|]. split.
  - exact (proj1 (proj2 (proj1 (proj2 (proj2
             (submit_enters_and_exits_submitting createProps
                (initialState createProps) (initialState createProps)
                Rejected
                (pageAfter createProps
                   [ Change "full_name" "Ivanov I.I.";
                     Change "phone" "+70000000000";
                     Change "passport_number" "1234 567890" ]))))
             (pageAfter createProps fillAndSubmit) Hs))).
  - exact (proj2 (proj2 (proj2
             (submit_enters_and_exits_submitting createProps
                (initialState createProps) (initialState createProps)
                Rejected (pageAfter createProps fillAndSubmit))))
             0%nat createRequest (proj2 fillAndSubmit_page)).
Defined.

(** C8 at the blank create form, where [full_name] is empty and the submit
    event is not delivered, and at the filled form, whose request carries
    the three required fields. *)
Lemma empty_required_field_blocks_submit_witness :
  (field (formData (state (mount createProps))) "full_name" = JStr "" /\
   reachable createProps (pageAfter createProps fillAndSubmit) /\
   Fetch createRequest KHandleSubmit
     ∈ log (pageAfter createProps fillAndSubmit)) /\
  step createProps Submit (mount createProps) = None /\
  validBody createRequest.
Proof.
  assert (reachable createProps (pageAfter createProps fillAndSubmit)) as Hr.
  { exists fillAndSubmit. exact (proj1 fillAndSubmit_page). }
  assert (Fetch createRequest KHandleSubmit
            ∈ log (pageAfter createProps fillAndSubmit)) as Hlog.
  { vm_compute. apply elem_of_cons. right. apply elem_of_cons. left.
    reflexivity. }
  assert ("full_name" ∈ requiredFields) as Hk.
  { apply elem_of_cons. left. reflexivity. }
  split; [exact (conj eq_refl (conj Hr Hlog))|]. split.
  - exact (proj1 (empty_required_field_blocks_submit createProps
                    (mount createProps)) "full_name" Hk eq_refl).
  - exact (proj2 (empty_required_field_blocks_submit createProps
                    (pageAfter createProps fillAndSubmit))
             Hr createRequest Hlog).
Defined.

(** C9 at a status 500 response whose body says [success: true], which
    arms the redirect, and at a status 200 response whose body says
    [success: false], which sets the error and arms nothing. *)
Lemma outcome_ignores_http_status_witness :
  (json (respond 500 createdBody) = json (respond 200 createdBody) /\
   json (respond 200 duplicateBody) = json (respond 409 duplicateBody)) /\
  handleSubmit_resumed createProps (Resolved (respond 500 createdBody))
    {| cell := initialState createProps; trace := [] |} =
  handleSubmit_resumed createProps (Resolved (respond 200 createdBody))
    {| cell := initialState createProps; trace := [] |} /\
  trace (exec (handleSubmit_resumed createProps
                 (Resolved (respond 500 createdBody)))
              (initialState createProps)) =
    [SetTimeout (RouterPush "/clients") 2000] /\
  trace (exec (handleSubmit_resumed createProps
                 (Resolved (respond 200 duplicateBody)))
              (initialState createProps)) = [] /\
  error (cell (exec (handleSubmit_resumed createProps
                       (Resolved (respond 200 duplicateBody)))
                    (initialState createProps))) = JStr "Duplicate passport".
Proof.
  split; [split; reflexivity|].
  destruct (outcome_ignores_http_status createProps
              (initialState createProps) (respond 500 createdBody)
              (respond 200 createdBody) eq_refl) as (_ & Hsame & Hyes).
  destruct (outcome_ignores_http_status createProps
              (initialState createProps) (respond 200 duplicateBody)
              (respond 409 duplicateBody) eq_refl) as (_ & _ & Hno).
  destruct (Hyes createdBody (JBool true) eq_refl eq_refl) as (Htr & _).
  destruct (Hno duplicateBody (JBool false) eq_refl eq_refl)
    as (Htr' & Herr & _).
  split; [exact Hsame|]. split; [exact Htr|]. split; [exact Htr'|].
  exact Herr.
Defined.

(** C10 at an edit form mounted without an identifier. *)
Lemma edit_mode_without_id_stays_loading_witness :
  (isEditMode editPropsNoId = true /\
   (clientId editPropsNoId = None \/ clientId editPropsNoId = Some 0) /\
   reachable editPropsNoId (mount editPropsNoId)) /\
  mount editPropsNoId = mount editPropsNoId /\
  loading (state (mount editPropsNoId)) = true /\
  render editPropsNoId (state (mount editPropsNoId)) = LoadingView /\
  log (mount editPropsNoId) = [] /\
  inflight (mount editPropsNoId) = [] /\
  timers (mount editPropsNoId) = [] /\
  forall ev, step editPropsNoId ev (mount editPropsNoId) = None.
Proof.
  assert (reachable editPropsNoId (mount editPropsNoId)) as Hr.
  { exists []. reflexivity. }
  split; [exact (conj eq_refl (conj (or_introl eq_refl) Hr))|].
  exact (edit_mode_without_id_stays_loading editPropsNoId
           (mount editPropsNoId) eq_refl (or_introl eq_refl) Hr).
Defined.

End Props.

(** ** Properties of the rest of the component *)

Module MoreProps.
Import ClientForm Page Spec Scenario More Props.

Ltac in_list :=
  repeat first [apply list_elem_of_here | apply list_elem_of_further].

(** *** Steps, inverted *)

Lemma step_Change_inv p n v pg pg' :
  step p (Change n v) pg = Some pg' ->
  location pg = None /\ loading (state pg) = false /\ n ∈ fieldNames /\
  pg' = {| state := {| formData := <[n := JStr v]> (formData (state pg));
                       loading := loading (state pg);
                       submitting := submitting (state pg);
                       error := error (state pg);
                       success := success (state pg) |};
           log := log pg; inflight := inflight pg; timers := timers pg;
           location := location pg |}.
Proof.
  unfold step, render. intros Hs.
  destruct (location pg) eqn:Hloc; [discriminate|].
  destruct (loading (state pg)) eqn:Hl; [discriminate|].
  destruct (existsb _ _) eqn:Hex; [|discriminate].
  injection Hs as <-. repeat split.
  - apply existsb_exists in Hex as (i & Hi & Hn).
    apply String.eqb_eq in Hn. subst n.
    unfold renderInputs in Hi. cbn [In] in Hi. unfold fieldNames.
    repeat (destruct Hi as [<- | Hi]; [cbn [name]; in_list|]).
    contradiction.
  - unfold run. run_handler. page_simpl. rewrite app_nil_r, Hl, Hloc.
    reflexivity.
Qed.

Lemma step_Submit_inv p pg pg' :
  step p Submit pg = Some pg' ->
  location pg = None /\ loading (state pg) = false /\
  submitting (state pg) = false /\
  checkValidity (renderInputs (formData (state pg))) = true /\
  pg' = {| state := {| formData := formData (state pg);
                       loading := false; submitting := true;
                       error := JStr ""; success := JStr "" |};
           log := log pg ++
                  [PreventDefault;
                   Fetch (submitRequest p (formData (state pg)))
                         KHandleSubmit];
           inflight := inflight pg ++
                       [(submitRequest p (formData (state pg)),
                         KHandleSubmit)];
           timers := timers pg; location := None |}.
Proof.
  unfold step, render. intros Hs.
  destruct (location pg) eqn:Hloc; [discriminate|].
  destruct (loading (state pg)) eqn:Hl; [discriminate|].
  destruct (submitting (state pg)) eqn:Hsub; [discriminate|].
  cbn [negb andb] in Hs.
  destruct (checkValidity _) eqn:Hv; [|discriminate].
  injection Hs as <-. repeat split.
  erewrite run_eq; [|apply handleSubmit_exec]. page_simpl.
  rewrite Hl, Hloc. reflexivity.
Qed.

Lemma step_Cancel_inv p pg pg' :
  step p Cancel pg = Some pg' ->
  location pg = None /\ loading (state pg) = false /\
  pg' = {| state := state pg; log := log pg ++ [Navigate "/clients"];
           inflight := inflight pg; timers := timers pg;
           location := Some "/clients" |}.
Proof.
  unfold step, render. intros Hs.
  destruct (location pg) eqn:Hloc; [discriminate|].
  destruct (loading (state pg)) eqn:Hl; [discriminate|].
  injection Hs as <-. repeat split.
Qed.

Lemma step_TimerFires_inv p i pg pg' :
  step p (TimerFires i) pg = Some pg' ->
  exists path ms,
    timers pg !! i = Some (RouterPush path, ms) /\
    pg' = {| state := state pg; log := log pg ++ [Navigate path];
             inflight := inflight pg; timers := delete i (timers pg);
             location := Some path |}.
Proof.
  unfold step. intros Hs.
  destruct (timers pg !! i) as [[[path] ms]|] eqn:Hi; [|discriminate].
  injection Hs as <-. exists path, ms. split; reflexivity.
Qed.

Lemma handleSubmit_resumed_failure_exact p s o m :
  SubmitFailure o m ->
  handleSubmit_resumed p o {| cell := s; trace := [] |} =
  (Normal tt,
   {| cell := {| formData := formData s; loading := loading s;
                 submitting := false; error := m; success := success s |};
      trace := diagnostic "Submit error:" o |}).
Proof.
  unfold diagnostic, thrown.
  intros [r data ok Hj Hok Ht | | r Hj | r data Hj Hok]; run_handler.
  - rewrite Hj, Hok, Ht, (getProp_read _ _ _ "message" Hok). reflexivity.
  - reflexivity.
  - rewrite Hj. reflexivity.
  - rewrite Hj, Hok. reflexivity.
Qed.

Lemma fetchClient_resumed_failure_exact s o m :
  LoadFailure o m ->
  fetchClient_resumed o {| cell := s; trace := [] |} =
  (Normal tt,
   {| cell := {| formData := formData s; loading := false;
                 submitting := submitting s; error := m;
                 success := success s |};
      trace := diagnostic "Fetch client error:" o |}).
Proof.
  unfold diagnostic, thrown.
  intros [r data ok Hj Hok Ht | r data ok Hj Hok Ht Hc | | r Hj
         | r data Hj Hok]; run_handler.
  - rewrite Hj, Hok, Ht. cbv beta iota. rewrite Ht.
    rewrite (getProp_read _ _ _ "message" Hok). reflexivity.
  - rewrite Hj, Hok, Ht, (getProp_read _ _ _ "client" Hok).
    cbv beta iota. rewrite Hc.
    rewrite (getProp_read _ _ _ "message" Hok). reflexivity.
  - reflexivity.
  - rewrite Hj. reflexivity.
  - rewrite Hj, Hok. reflexivity.
Qed.

(** Running a resumed handler on a state gives one of the four results. *)
Lemma resume_Settled p k o s :
  exists st tr,
    resume p k o {| cell := s; trace := [] |} =
      (Normal tt, {| cell := st; trace := tr |}) /\
    Settled p s k o st tr.
Proof.
  destruct k; cbn [resume].
  - destruct (load_outcome_cases o)
      as [(r & data & ok & -> & Hj & Hok & Ht & Hc) | (m & Hf)].
    + eexists _, _. split.
      * exact (fetchClient_resumed_success s r data ok Hj Hok Ht Hc).
      * eapply settled_load_ok; eassumption.
    + eexists _, _. split.
      * exact (fetchClient_resumed_failure_exact s o m Hf).
      * apply settled_load_failed. exact Hf.
  - destruct (submit_outcome_cases o)
      as [(r & data & ok & -> & Hj & Hok & Ht) | (m & Hf)].
    + eexists _, _. split.
      * exact (handleSubmit_resumed_success p s r data ok Hj Hok Ht).
      * eapply settled_submit_ok; eassumption.
    + eexists _, _. split.
      * exact (handleSubmit_resumed_failure_exact p s o m Hf).
      * apply settled_submit_failed. exact Hf.
Qed.

Lemma step_Settle_inv p i o pg pg' :
  step p (Settle i o) pg = Some pg' ->
  exists req k st tr,
    inflight pg !! i = Some (req, k) /\
    Settled p (state pg) k o st tr /\
    pg' = {| state := st; log := log pg ++ tr;
             inflight := delete i (inflight pg);
             timers := timers pg ++ timeouts tr;
             location := location pg |}.
Proof.
  unfold step. intros Hs.
  destruct (inflight pg !! i) as [[req k]|] eqn:Hi; [|discriminate].
  injection Hs as <-.
  destruct (resume_Settled p k o (state pg)) as (st & tr & Heq & HS).
  exists req, k, st, tr. split; [reflexivity|]. split; [exact HS|].
  erewrite run_eq; [|page_simpl; exact Heq]. page_simpl.
  destruct HS; unfold diagnostic; try destruct (thrown o);
    cbn [foldl dispatch timeouts omap state log inflight timers location];
    rewrite ?app_nil_r; reflexivity.
Qed.

(** *** Reachable pages, by induction *)

Lemma steps_app p evs1 evs2 pg :
  steps p (evs1 ++ evs2)%list pg =
  match steps p evs1 pg with
  | Some pg1 => steps p evs2 pg1
  | None => None
  end.
Proof.
  revert pg. induction evs1 as [|ev evs1 IH]; intros pg; cbn; [reflexivity|].
  destruct (step p ev pg); [apply IH|reflexivity].
Qed.

Lemma reachable_mount p : reachable p (mount p).
Proof. exists []. reflexivity. Qed.

Lemma reachable_step p ev pg pg' :
  reachable p pg -> step p ev pg = Some pg' -> reachable p pg'.
Proof.
  intros (evs & He) Hs. exists (evs ++ [ev])%list.
  rewrite steps_app, He. cbn. rewrite Hs. reflexivity.
Qed.

Lemma reachable_steps p evs : forall pg pg',
  reachable p pg -> steps p evs pg = Some pg' -> reachable p pg'.
Proof.
  induction evs as [|ev evs IH]; intros pg pg' Hr Hs; cbn in Hs.
  - congruence.
  - destruct (step p ev pg) as [pg1|] eqn:H1; [|discriminate].
    eapply IH; [|exact Hs]. eapply reachable_step; eassumption.
Qed.

(** A property of the mount that every step of a reachable page keeps holds
    of every reachable page. *)
Lemma reachable_invariant p (P : Page -> Prop) :
  P (mount p) ->
  (forall ev pg pg',
     reachable p pg -> P pg -> step p ev pg = Some pg' -> P pg') ->
  forall pg, reachable p pg -> P pg.
Proof.
  intros H0 Hstep pg (evs & He).
  assert (forall evs pg0 pg1,
            reachable p pg0 -> P pg0 -> steps p evs pg0 = Some pg1 -> P pg1)
    as Hgen.
  { clear evs He pg. induction evs as [|ev evs IH]; intros pg0 pg1 Hr HP Hs;
      cbn in Hs.
    - congruence.
    - destruct (step p ev pg0) as [pg2|] eqn:H1; [|discriminate].
      eapply (IH pg2); [|eapply Hstep; eassumption|exact Hs].
      eapply reachable_step; eassumption. }
  eapply Hgen; [apply reachable_mount|exact H0|exact He].
Qed.

(** *** The shape of reachable pages *)

Lemma mount_eq p :
  mount p =
  {| state := initialState p;
     log := if shouldFetch p then [Fetch (loadRequest p) KFetchClient]
            else [];
     inflight := if shouldFetch p then [(loadRequest p, KFetchClient)]
                 else [];
     timers := []; location := None |}.
Proof.
  unfold mount, run, mountEffect, when.
  destruct (shouldFetch p); reflexivity.
Qed.

Lemma shouldFetch_edit p : shouldFetch p = true -> isEditMode p = true.
Proof. unfold shouldFetch. destruct (isEditMode p); [auto|discriminate]. Qed.

Lemma dom_blankForm :
  dom blankForm = (list_to_set fieldNames : gset string).
Proof. unfold blankForm. rewrite dom_list_to_map_L. reflexivity. Qed.

Lemma dom_formOfClient client :
  dom (formOfClient client) = (list_to_set fieldNames : gset string).
Proof. unfold formOfClient. rewrite dom_list_to_map_L. reflexivity. Qed.

Lemma dom_insert_field (fd : ClientFormData) n v :
  n ∈ fieldNames ->
  dom fd = (list_to_set fieldNames : gset string) ->
  dom (<[n := v]> fd) = (list_to_set fieldNames : gset string).
Proof.
  intros Hn Hd. rewrite dom_insert_L, Hd.
  apply subseteq_union_1_L, singleton_subseteq_l.
  apply elem_of_list_to_set. exact Hn.
Qed.

Lemma Shape_mount p : Shape p (mount p).
Proof.
  assert (state (mount p) = initialState p) as Hst
    by (rewrite mount_eq; reflexivity).
  assert (timers (mount p) = []) as Ht by (rewrite mount_eq; reflexivity).
  assert (location (mount p) = None) as Hloc
    by (rewrite mount_eq; reflexivity).
  assert (inflight (mount p) = [] \/ isEditMode p = true) as Hin.
  { rewrite mount_eq. cbn [inflight].
    destruct (shouldFetch p) eqn:Hf; [right|left; reflexivity].
    apply shouldFetch_edit, Hf. }
  unfold Shape. rewrite Hst, Ht, Hloc.
  cbn [initialState formData loading submitting error success].
  split; [apply dom_blankForm|]. split; [auto|]. split; [constructor|].
  destruct (isEditMode p) eqn:He; [auto|].
  destruct Hin as [Hin | Hin]; [|discriminate]. auto.
Qed.

Lemma timeouts_diagnostic label o : timeouts (diagnostic label o) = [].
Proof. unfold diagnostic. destruct (thrown o); reflexivity. Qed.

Lemma Shape_step p ev pg pg' :
  Shape p pg -> step p ev pg = Some pg' -> Shape p pg'.
Proof.
  intros (Hdom & Hloc & Htim & Hph) Hs. unfold Shape.
  destruct ev as [n v| | |i o|i].
  - apply step_Change_inv in Hs as (Hl0 & Hl & Hn & ->).
    cbn [state formData loading submitting error success inflight timers
         location].
    rewrite Hl in Hph |- *.
    split; [apply dom_insert_field; assumption|]. auto.
  - apply step_Submit_inv in Hs as (Hl0 & Hl & Hsub & Hv & ->).
    cbn [state formData loading submitting error success inflight timers
         location].
    rewrite Hl, Hsub in Hph. destruct Hph as [Hin _]. rewrite Hin.
    split; [exact Hdom|]. split; [auto|]. split; [exact Htim|].
    split; [reflexivity|]. split; [reflexivity|]. eexists. reflexivity.
  - apply step_Cancel_inv in Hs as (Hl0 & Hl & ->).
    cbn [state inflight timers location]. rewrite Hl in Hph |- *. auto.
  - apply step_Settle_inv in Hs as (req & k & st & tr & Hi & HS & ->).
    cbn [state inflight timers location].
    destruct (loading (state pg)) eqn:Hl.
    + destruct Hph as [Hm He]. rewrite Hm, mount_eq in Hi.
      cbn [inflight] in Hi.
      destruct (shouldFetch p) eqn:Hf; [|discriminate].
      destruct i as [|i]; [|discriminate]. injection Hi as <- <-.
      assert (state pg = initialState p) as Hst
        by (rewrite Hm, mount_eq; reflexivity).
      assert (inflight pg = [(loadRequest p, KFetchClient)]) as Hin
        by (rewrite Hm, mount_eq; cbn; rewrite Hf; reflexivity).
      assert (timers pg = []) as Ht by (rewrite Hm, mount_eq; reflexivity).
      rewrite Hin, Ht. rewrite Hst in HS.
      inversion HS; subst; cbn [formData loading submitting error success
                                initialState timeouts omap app delete
                                list_delete];
        rewrite ?timeouts_diagnostic; cbn [app].
      * split; [apply dom_formOfClient|]. split; [exact Hloc|].
        split; [constructor|]. auto.
      * split; [apply dom_blankForm|]. split; [exact Hloc|].
        split; [constructor|]. auto.
    + destruct (submitting (state pg)) eqn:Hsub.
      * destruct Hph as (Herr & Hsuc & req0 & Hin). rewrite Hin in Hi |- *.
        destruct i as [|i]; [|discriminate]. injection Hi as <- <-.
        inversion HS; subst; cbn [formData loading submitting error success
                                   timeouts omap delete list_delete];
          rewrite ?timeouts_diagnostic, ?app_nil_r, ?Hl.
        -- split; [destruct (isEditMode p); [exact Hdom|apply dom_blankForm]|].
           split; [exact Hloc|].
           split; [apply Forall_app; split; [exact Htim|repeat constructor]|].
           auto.
        -- split; [exact Hdom|]. split; [exact Hloc|].
           split; [exact Htim|]. auto.
      * destruct Hph as [Hin _]. rewrite Hin in Hi. discriminate.
  - apply step_TimerFires_inv in Hs as (path & ms & Hi & ->).
    cbn [state inflight timers location].
    assert (path = "/clients") as ->.
    { eapply (proj1 (Forall_lookup _ _)) in Htim; [|exact Hi]. congruence. }
    destruct (loading (state pg)) eqn:Hl.
    + destruct Hph as [Hm _]. rewrite Hm, mount_eq in Hi. discriminate.
    + split; [exact Hdom|]. split; [auto|].
      split; [apply Forall_delete; exact Htim|]. exact Hph.
Qed.

Lemma reachable_Shape p pg : reachable p pg -> Shape p pg.
Proof.
  apply (reachable_invariant p (Shape p)); [apply Shape_mount|].
  intros ev pg0 pg1 _. apply Shape_step.
Qed.


(** *** Editing *)

(** X1: edits compose as writes to a record.  An edit reads back; it leaves
    every other property, every other state cell and the outside alone; a
    second edit of the same control overwrites the first; edits of
    different controls can be swapped. *)
Theorem handleChange_edits_compose (s : State) (n1 n2 v1 v2 : string) :
  completion (handleChange n1 v1) s = Normal tt /\
  trace (exec (handleChange n1 v1) s) = [] /\
  field (formData (cell (exec (handleChange n1 v1) s))) n1 = JStr v1 /\
  (forall k, k <> n1 ->
     formData (cell (exec (handleChange n1 v1) s)) !! k = formData s !! k) /\
  loading (cell (exec (handleChange n1 v1) s)) = loading s /\
  submitting (cell (exec (handleChange n1 v1) s)) = submitting s /\
  error (cell (exec (handleChange n1 v1) s)) = error s /\
  success (cell (exec (handleChange n1 v1) s)) = success s /\
  cell (exec (handleChange n1 v2) (cell (exec (handleChange n1 v1) s))) =
    cell (exec (handleChange n1 v2) s) /\
  (n1 <> n2 ->
   cell (exec (handleChange n2 v2) (cell (exec (handleChange n1 v1) s))) =
   cell (exec (handleChange n1 v1) (cell (exec (handleChange n2 v2) s)))).
Proof.
  run_handler. repeat split.
  - unfold field. rewrite lookup_insert_eq. reflexivity.
  - intros k Hk. apply lookup_insert_ne. congruence.
  - rewrite insert_insert_eq. reflexivity.
  - intros Hne. f_equal. apply insert_insert_ne. congruence.
Qed.

Lemma controlValue_render p s k :
  loading s = false ->
  controlValue (render p s) k =
  if bool_decide (k ∈ fieldNames) then Some (field (formData s) k) else None.
Proof.
  intros Hl. unfold controlValue, render. rewrite Hl. cbn [inputsOf].
  unfold renderInputs. cbn [List.find name].
  destruct (decide (k ∈ fieldNames)) as [Hin | Hout].
  - rewrite (bool_decide_eq_true_2 _ Hin). unfold fieldNames in Hin.
    repeat (apply elem_of_cons in Hin as [-> | Hin]; [reflexivity|]).
    apply elem_of_nil in Hin. contradiction.
  - rewrite (bool_decide_eq_false_2 _ Hout).
    repeat (match goal with
            | |- context [String.eqb ?a k] =>
                let E := fresh "E" in
                destruct (String.eqb a k) eqn:E;
                [apply String.eqb_eq in E; subst k; exfalso; apply Hout;
                 unfold fieldNames; in_list|]
            end).
    reflexivity.
Qed.

(** X3: what the user types shows in the control, and only there: after a
    change event on the control [n] the view gives [n] the typed value and
    every other control the value it had; the banners, the requests in
    flight, the timers and the log are as before. *)
Theorem typing_shows_in_the_control
    (p : ClientFormProps) (n v : string) (pg pg' : Page) :
  step p (Change n v) pg = Some pg' ->
  controlValue (render p (state pg')) n = Some (JStr v) /\
  (forall k, k <> n ->
     controlValue (render p (state pg')) k =
     controlValue (render p (state pg)) k) /\
  errorBannerOf (render p (state pg')) = errorBannerOf (render p (state pg)) /\
  successBannerOf (render p (state pg')) =
    successBannerOf (render p (state pg)) /\
  submitDisabledOf (render p (state pg')) =
    submitDisabledOf (render p (state pg)) /\
  log pg' = log pg /\ inflight pg' = inflight pg /\ timers pg' = timers pg /\
  location pg' = location pg.
Proof.
  intros Hs. apply step_Change_inv in Hs as (Hloc & Hl & Hn & ->).
  cbn [state log inflight timers location].
  split; [|split; [|unfold render; cbn [loading error success submitting];
                    rewrite Hl; repeat split]].
  - rewrite controlValue_render by exact Hl.
    rewrite (bool_decide_eq_true_2 _ Hn). cbn [formData]. unfold field.
    rewrite lookup_insert_eq. reflexivity.
  - intros k Hk. rewrite !controlValue_render by exact Hl.
    cbn [formData]. unfold field. rewrite lookup_insert_ne by congruence.
    reflexivity.
Qed.


(** *** Invariants of the form data and of the page *)

(** X2: the form data of a mounted form always has the ten properties of
    [ClientFormData] and no other, whatever was typed, loaded, submitted
    or reset. *)
Theorem form_always_has_the_ten_fields (p : ClientFormProps) (pg : Page) :
  reachable p pg ->
  dom (formData (state pg)) = (list_to_set fieldNames : gset string) /\
  forall k, is_Some (formData (state pg) !! k) <-> k ∈ fieldNames.
Proof.
  intros Hr. destruct (reachable_Shape p pg Hr) as (Hdom & _).
  split; [exact Hdom|]. intros k.
  rewrite <- elem_of_dom, Hdom. apply elem_of_list_to_set.
Qed.

(** X14: once the loading indicator is down it stays down: no later event
    raises [loading] again. *)
Theorem loading_never_returns
    (p : ClientFormProps) (evs : list Event) (pg pg' : Page) :
  loading (state pg) = false ->
  steps p evs pg = Some pg' ->
  loading (state pg') = false.
Proof.
  revert pg. induction evs as [|ev evs IH]; intros pg Hl Hs; cbn in Hs.
  - congruence.
  - destruct (step p ev pg) as [pg1|] eqn:H1; [|discriminate].
    apply (IH pg1); [|exact Hs]. clear IH Hs.
    destruct ev as [n v| | |i o|i].
    + apply step_Change_inv in H1 as (_ & _ & _ & ->). exact Hl.
    + apply step_Submit_inv in H1 as (_ & _ & _ & _ & ->). reflexivity.
    + apply step_Cancel_inv in H1 as (_ & _ & ->). exact Hl.
    + apply step_Settle_inv in H1 as (req & k & st & tr & _ & HS & ->).
      destruct HS; cbn [state loading]; auto.
    + apply step_TimerFires_inv in H1 as (path & ms & _ & ->). exact Hl.
Qed.


(** *** What the component ever asks of the network and the router *)

(** What one step adds to the log. *)
Lemma step_log_requests p ev pg pg' :
  step p ev pg = Some pg' ->
  exists tr,
    log pg' = (log pg ++ tr)%list /\
    loadRequests tr = [] /\
    submitRequests tr =
      match ev with
      | Submit => [submitRequest p (formData (state pg))]
      | _ => []
      end /\
    navigations tr =
      match ev with
      | Cancel => ["/clients"]
      | TimerFires i =>
          match timers pg !! i with
          | Some (RouterPush path, _) => [path]
          | None => []
          end
      | _ => []
      end.
Proof.
  intros Hs. destruct ev as [n v| | |i o|i].
  - apply step_Change_inv in Hs as (_ & _ & _ & ->).
    exists []. rewrite app_nil_r. auto.
  - apply step_Submit_inv in Hs as (_ & _ & _ & _ & ->).
    eexists. split; [reflexivity|]. auto.
  - apply step_Cancel_inv in Hs as (_ & _ & ->).
    eexists. split; [reflexivity|]. auto.
  - apply step_Settle_inv in Hs as (req & k & st & tr & _ & HS & ->).
    exists tr. split; [reflexivity|].
    destruct HS; unfold diagnostic; try destruct (thrown o); auto.
  - apply step_TimerFires_inv in Hs as (path & ms & Hi & ->).
    eexists. split; [reflexivity|]. rewrite Hi. auto.
Qed.

Lemma submit_log_shape p pg :
  reachable p pg ->
  Forall (fun rq => exists fd,
            rq = submitRequest p fd /\
            dom fd = (list_to_set fieldNames : gset string))
         (submitRequests (log pg)).
Proof.
  revert pg. apply (reachable_invariant p).
  - rewrite mount_eq. cbn [log]. destruct (shouldFetch p); constructor.
  - intros ev pg pg' Hr HP Hs.
    destruct (step_log_requests p ev pg pg' Hs) as (tr & -> & _ & Hsub & _).
    unfold submitRequests in *. rewrite omap_app.
    apply Forall_app. split; [exact HP|].
    rewrite Hsub. destruct ev; repeat constructor.
    eexists. split; [reflexivity|]. apply (reachable_Shape p pg Hr).
Qed.

(** X10: every submit request a mounted form has ever made is the one its
    mode prescribes ([POST /api/clients], or [PUT] to the client's URL),
    sent as JSON, with a body that has exactly the ten fields. *)
Theorem every_submit_sends_the_ten_fields
    (p : ClientFormProps) (pg : Page) (req : Request) :
  reachable p pg ->
  req ∈ submitRequests (log pg) ->
  url req = (if isEditMode p then clientUrl p else "/api/clients") /\
  method req = (if isEditMode p then PUT else POST) /\
  headers req = [("Content-Type", "application/json")] /\
  exists fd, body req = Some fd /\
             dom fd = (list_to_set fieldNames : gset string).
Proof.
  intros Hr Hin.
  pose proof (submit_log_shape p pg Hr) as Hall.
  eapply (proj1 (Forall_forall _ _)) in Hall; [|exact Hin].
  destruct Hall as (fd & -> & Hdom). cbn. eauto 10.
Qed.

(** X8: the only place the component ever routes to is [/clients]: the
    route of a mounted form is its own or [/clients], every armed timer is
    the 2000 ms redirect to [/clients], and every [router.push] it has made
    went there. *)
Theorem only_route_is_the_listing (p : ClientFormProps) (pg : Page) :
  reachable p pg ->
  (location pg = None \/ location pg = Some "/clients") /\
  Forall (fun t => t = (RouterPush "/clients", 2000)) (timers pg) /\
  Forall (fun path => path = "/clients") (navigations (log pg)).
Proof.
  intros Hr. destruct (reachable_Shape p pg Hr) as (_ & Hloc & Htim & _).
  split; [exact Hloc|]. split; [exact Htim|]. clear Hloc Htim.
  revert pg Hr. apply (reachable_invariant p).
  - rewrite mount_eq. cbn [log]. destruct (shouldFetch p); constructor.
  - intros ev pg pg' Hr HP Hs.
    destruct (step_log_requests p ev pg pg' Hs) as (tr & -> & _ & _ & Hnav).
    unfold navigations in *. rewrite omap_app.
    apply Forall_app. split; [exact HP|]. rewrite Hnav.
    destruct ev as [n v| | |i o|i]; try constructor; auto.
    destruct (timers pg !! i) as [[[path] ms]|] eqn:Hi; [|constructor].
    destruct (reachable_Shape p pg Hr) as (_ & _ & Htim & _).
    eapply (proj1 (Forall_lookup _ _)) in Htim; [|exact Hi].
    repeat constructor. congruence.
Qed.

(** *** Cancel *)

(** X4: cancel is there whenever the form is rendered, also while a submit
    is in flight; it routes to [/clients] at once and does nothing else:
    no state cell changes, no request is issued or dropped, no timer is
    cleared, and every request in flight can still settle afterwards. *)
Theorem cancel_only_navigates (p : ClientFormProps) (pg : Page) :
  location pg = None ->
  loading (state pg) = false ->
  exists pg',
    step p Cancel pg = Some pg' /\
    state pg' = state pg /\
    inflight pg' = inflight pg /\
    timers pg' = timers pg /\
    location pg' = Some "/clients" /\
    log pg' = (log pg ++ [Navigate "/clients"])%list /\
    forall i o, is_Some (inflight pg !! i) ->
                is_Some (step p (Settle i o) pg').
Proof.
  intros Hloc Hl. eexists. split.
  - unfold step, render. rewrite Hloc, Hl. reflexivity.
  - unfold run. run_handler. page_simpl. repeat split.
    intros i o [[req k] Hi]. unfold step. cbn [inflight]. rewrite Hi. eauto.
Qed.

(** *** Diagnostics *)

(** X11: a handler writes to the console exactly when something was thrown
    in its [try] block, and then one line with its own label and the thrown
    error; a failure that the server reports is not logged. *)
Theorem console_error_exactly_when_thrown
    (p : ClientFormProps) (o : FetchOutcome) (s : State) :
  consoleErrors (trace (exec (fetchClient_resumed o) s)) =
    match thrown o with
    | Some e => [("Fetch client error:", e)]
    | None => []
    end /\
  consoleErrors (trace (exec (handleSubmit_resumed p o) s)) =
    match thrown o with
    | Some e => [("Submit error:", e)]
    | None => []
    end.
Proof.
  split.
  - destruct (resume_Settled p KFetchClient o s) as (st & tr & Heq & HS).
    cbn [resume] in Heq. unfold exec. rewrite Heq. cbn [snd trace].
    inversion HS as [r data ok Hj Hok Ht Hc | o' m Hf | |]; subst.
    + unfold thrown. rewrite Hj, Hok. reflexivity.
    + unfold diagnostic. destruct (thrown o); reflexivity.
  - destruct (resume_Settled p KHandleSubmit o s) as (st & tr & Heq & HS).
    cbn [resume] in Heq. unfold exec. rewrite Heq. cbn [snd trace].
    inversion HS as [| | r data ok Hj Hok Ht | o' m Hf]; subst.
    + unfold thrown. rewrite Hj, Hok. reflexivity.
    + unfold diagnostic. destruct (thrown o); reflexivity.
Qed.


(** *** Submits, composed with what comes before and after *)



(** X15: the redirect armed by a successful submit goes off: the timer it
    armed can fire, and firing it routes to [/clients], touches no state
    cell, leaves the requests in flight alone and disarms only itself. *)
Theorem redirect_fires_after_success
    (p : ClientFormProps) (pg : Page) (i : nat) (req : Request)
    (r : Response) (data ok : JsValue) :
  inflight pg !! i = Some (req, KHandleSubmit) ->
  json r = Some data ->
  getProp data "success" = Some ok -> truthy ok = true ->
  exists pg1 pg2,
    step p (Settle i (Resolved r)) pg = Some pg1 /\
    step p (TimerFires (length (timers pg))) pg1 = Some pg2 /\
    location pg2 = Some "/clients" /\
    state pg2 = state pg1 /\
    timers pg2 = timers pg /\
    inflight pg2 = inflight pg1 /\
    log pg2 = (log pg1 ++ [Navigate "/clients"])%list.
Proof.
  intros Hi Hj Hok Ht.
  eexists _, _. split; [eapply settle_submit_success; eassumption|].
  split.
  - unfold step. cbn [timers]. rewrite list_lookup_middle by reflexivity.
    reflexivity.
  - unfold run. run_handler. page_simpl.
    rewrite (delete_middle (timers pg) []), app_nil_r. repeat split.
Qed.


Lemma blank_field_blocks_submit p pg k :
  k ∈ requiredFields ->
  field (formData (state pg)) k = JStr "" ->
  step p Submit pg = None.
Proof.
  intros Hk He. unfold step, render.
  destruct (location pg); [reflexivity|].
  destruct (loading (state pg)); [reflexivity|].
  destruct (checkValidity (renderInputs (formData (state pg)))) eqn:Hv.
  - exfalso. apply (checkValidity_required _ k Hv Hk). rewrite He.
    reflexivity.
  - rewrite andb_false_r. reflexivity.
Qed.

(** X17: a created record cannot be created twice by accident: after a
    successful create the form is blank, so the submit event is not
    delivered, and it is still not delivered after any single edit, since
    at least two required fields are then empty. *)
Theorem created_form_cannot_be_resubmitted
    (p : ClientFormProps) (pg : Page) (i : nat) (req : Request)
    (r : Response) (data ok : JsValue) :
  isEditMode p = false ->
  inflight pg !! i = Some (req, KHandleSubmit) ->
  json r = Some data ->
  getProp data "success" = Some ok -> truthy ok = true ->
  exists pg1,
    step p (Settle i (Resolved r)) pg = Some pg1 /\
    step p Submit pg1 = None /\
    forall n v pg2,
      step p (Change n v) pg1 = Some pg2 -> step p Submit pg2 = None.
Proof.
  intros He Hi Hj Hok Ht.
  eexists. split; [eapply settle_submit_success; eassumption|].
  rewrite He. split.
  - apply (blank_field_blocks_submit p _ "full_name"); [in_list|].
    reflexivity.
  - intros n v pg2 Hs. apply step_Change_inv in Hs as (_ & _ & _ & ->).
    destruct (decide (n = "phone")) as [-> | Hn].
    + apply (blank_field_blocks_submit p _ "full_name"); [in_list|].
      cbn [state formData]. unfold field.
      rewrite lookup_insert_ne by discriminate. reflexivity.
    + apply (blank_field_blocks_submit p _ "phone");
        [unfold requiredFields; in_list|].
      cbn [state formData]. unfold field.
      rewrite lookup_insert_ne by exact Hn. reflexivity.
Qed.

(** *** The properties at the scenarios *)

Lemma reachable_pageAfter p evs :
  is_Some (steps p evs (mount p)) -> reachable p (pageAfter p evs).
Proof.
  intros [pg Hs]. exists evs. unfold pageAfter. rewrite Hs. reflexivity.
Qed.

Lemma fillAndSubmit_reachable :
  reachable createProps (pageAfter createProps fillAndSubmit).
Proof. exists fillAndSubmit. exact (proj1 fillAndSubmit_page). Qed.

Lemma loadAndSubmit_reachable :
  reachable editProps (pageAfter editProps loadAndSubmit).
Proof. exists loadAndSubmit. exact (proj1 loadAndSubmit_page). Qed.

(** X2 at the filled and submitted create form. *)
Lemma form_always_has_the_ten_fields_witness :
  reachable createProps (pageAfter createProps fillAndSubmit) /\
  dom (formData (state (pageAfter createProps fillAndSubmit))) =
    (list_to_set fieldNames : gset string) /\
  forall k,
    is_Some (formData (state (pageAfter createProps fillAndSubmit)) !! k) <->
    k ∈ fieldNames.
Proof.
  split; [exact fillAndSubmit_reachable|].
  exact (form_always_has_the_ten_fields createProps
           (pageAfter createProps fillAndSubmit) fillAndSubmit_reachable).
Defined.

(** X3 at the first keystrokes into the blank create form. *)
Lemma typing_shows_in_the_control_witness :
  step createProps (Change "full_name" "Ivanov I.I.") (mount createProps) =
    Some (pageAfter createProps [Change "full_name" "Ivanov I.I."]) /\
  controlValue
    (render createProps
       (state (pageAfter createProps [Change "full_name" "Ivanov I.I."])))
    "full_name" = Some (JStr "Ivanov I.I.") /\
  controlValue
    (render createProps
       (state (pageAfter createProps [Change "full_name" "Ivanov I.I."])))
    "phone" = Some (JStr "").
Proof.
  assert (step createProps (Change "full_name" "Ivanov I.I.")
               (mount createProps) =
          Some (pageAfter createProps [Change "full_name" "Ivanov I.I."]))
    as Hs by (vm_compute; reflexivity).
  split; [exact Hs|].
  destruct (typing_shows_in_the_control createProps "full_name"
              "Ivanov I.I." (mount createProps) _ Hs) as (Hn & Hk & _).
  split; [exact Hn|].
  rewrite (Hk "phone") by discriminate. reflexivity.
Defined.

(** X4 at the create form while its submit is in flight. *)
Lemma cancel_only_navigates_witness :
  (location (pageAfter createProps fillAndSubmit) = None /\
   loading (state (pageAfter createProps fillAndSubmit)) = false /\
   submitting (state (pageAfter createProps fillAndSubmit)) = true) /\
  exists pg',
    step createProps Cancel (pageAfter createProps fillAndSubmit) = Some pg' /\
    state pg' = state (pageAfter createProps fillAndSubmit) /\
    inflight pg' = inflight (pageAfter createProps fillAndSubmit) /\
    timers pg' = timers (pageAfter createProps fillAndSubmit) /\
    location pg' = Some "/clients" /\
    log pg' =
      (log (pageAfter createProps fillAndSubmit)
       ++ [Navigate "/clients"])%list /\
    forall i o,
      is_Some (inflight (pageAfter createProps fillAndSubmit) !! i) ->
      is_Some (step createProps (Settle i o) pg').
Proof.
  split; [repeat split; vm_compute; reflexivity|].
  exact (cancel_only_navigates createProps
           (pageAfter createProps fillAndSubmit) eq_refl eq_refl).
Defined.


(** X8 at the create scenario carried through to the redirect. *)
Lemma only_route_is_the_listing_witness :
  reachable createProps (pageAfter createProps createAndRedirect) /\
  location (pageAfter createProps createAndRedirect) = Some "/clients" /\
  Forall (fun path => path = "/clients")
         (navigations (log (pageAfter createProps createAndRedirect))).
Proof.
  assert (reachable createProps (pageAfter createProps createAndRedirect))
    as Hr.
  { apply reachable_pageAfter. vm_compute. eexists. reflexivity. }
  split; [exact Hr|]. split; [vm_compute; reflexivity|].
  exact (proj2 (proj2 (only_route_is_the_listing createProps
                         (pageAfter createProps createAndRedirect) Hr))).
Defined.

Lemma createRequest_logged :
  createRequest ∈ submitRequests (log (pageAfter createProps fillAndSubmit)).
Proof. vm_compute. in_list. Qed.

(** X10 at the request of the create scenario. *)
Lemma every_submit_sends_the_ten_fields_witness :
  (reachable createProps (pageAfter createProps fillAndSubmit) /\
   createRequest
     ∈ submitRequests (log (pageAfter createProps fillAndSubmit))) /\
  url createRequest = "/api/clients" /\
  method createRequest = POST /\
  headers createRequest = [("Content-Type", "application/json")] /\
  exists fd, body createRequest = Some fd /\
             dom fd = (list_to_set fieldNames : gset string).
Proof.
  split; [exact (conj fillAndSubmit_reachable createRequest_logged)|].
  exact (every_submit_sends_the_ten_fields createProps
           (pageAfter createProps fillAndSubmit) createRequest
           fillAndSubmit_reachable createRequest_logged).
Defined.


(** X14 along the create scenario. *)
Lemma loading_never_returns_witness :
  (loading (state (mount createProps)) = false /\
   steps createProps fillAndSubmit (mount createProps) =
     Some (pageAfter createProps fillAndSubmit)) /\
  loading (state (pageAfter createProps fillAndSubmit)) = false.
Proof.
  split; [exact (conj eq_refl (proj1 fillAndSubmit_page))|].
  exact (loading_never_returns createProps fillAndSubmit (mount createProps)
           (pageAfter createProps fillAndSubmit) eq_refl
           (proj1 fillAndSubmit_page)).
Defined.

(** X15 at the create scenario answered with "Created". *)
Lemma redirect_fires_after_success_witness :
  inflight (pageAfter createProps fillAndSubmit) !! 0%nat =
    Some (createRequest, KHandleSubmit) /\
  exists pg1 pg2,
    step createProps (Settle 0 (Resolved (respond 201 createdBody)))
         (pageAfter createProps fillAndSubmit) = Some pg1 /\
    step createProps (TimerFires 0) pg1 = Some pg2 /\
    location pg2 = Some "/clients" /\
    state pg2 = state pg1 /\
    timers pg2 = [] /\
    inflight pg2 = inflight pg1 /\
    log pg2 = (log pg1 ++ [Navigate "/clients"])%list.
Proof.
  split; [exact (proj2 fillAndSubmit_page)|].
  exact (redirect_fires_after_success createProps
           (pageAfter createProps fillAndSubmit) 0 createRequest
           (respond 201 createdBody) createdBody (JBool true)
           (proj2 fillAndSubmit_page) eq_refl eq_refl eq_refl).
Defined.



(** X17 at the create scenario answered with "Created". *)
Lemma created_form_cannot_be_resubmitted_witness :
  (isEditMode createProps = false /\
   inflight (pageAfter createProps fillAndSubmit) !! 0%nat =
     Some (createRequest, KHandleSubmit)) /\
  exists pg1,
    step createProps (Settle 0 (Resolved (respond 201 createdBody)))
         (pageAfter createProps fillAndSubmit) = Some pg1 /\
    step createProps Submit pg1 = None /\
    forall n v pg2,
      step createProps (Change n v) pg1 = Some pg2 ->
      step createProps Submit pg2 = None.
Proof.
  split; [exact (conj eq_refl (proj2 fillAndSubmit_page))|].
  exact (created_form_cannot_be_resubmitted createProps
           (pageAfter createProps fillAndSubmit) 0 createRequest
           (respond 201 createdBody) createdBody (JBool true)
           eq_refl (proj2 fillAndSubmit_page) eq_refl eq_refl eq_refl).
Defined.

End MoreProps.

(** ** Properties under changing props *)

Module LiveProps.
Import ClientForm Page Spec Scenario More Props MoreProps.

(** *** The effect after a re-render *)

Lemma run_updateEffect prev next pg :
  state (run (Live.updateEffect prev next) pg) = state pg /\
  log (run (Live.updateEffect prev next) pg) =
    (log pg ++ if Live.depsChanged prev next && shouldFetch next
               then [Fetch (loadRequest next) KFetchClient] else [])%list /\
  inflight (run (Live.updateEffect prev next) pg) =
    (inflight pg ++ if Live.depsChanged prev next && shouldFetch next
                    then [(loadRequest next, KFetchClient)] else [])%list /\
  timers (run (Live.updateEffect prev next) pg) = timers pg /\
  location (run (Live.updateEffect prev next) pg) = location pg.
Proof.
  unfold run, Live.updateEffect, mountEffect, when.
  destruct (Live.depsChanged prev next); [destruct (shouldFetch next)|];
    cbn [andb]; run_handler; page_simpl; rewrite ?app_nil_r; auto.
Qed.

Lemma submitsInFlight_app pg extra :
  omap (fun rk : Request * Continuation =>
          match snd rk with
          | KHandleSubmit => Some (fst rk)
          | KFetchClient => None
          end) (inflight pg ++ extra)%list =
  (Live.submitsInFlight pg ++
   omap (fun rk : Request * Continuation =>
           match snd rk with
           | KHandleSubmit => Some (fst rk)
           | KFetchClient => None
           end) extra)%list.
Proof. unfold Live.submitsInFlight. apply omap_app. Qed.

(** Taking a request out of flight takes one submit out if it is a submit,
    and none if it is a load. *)
Lemma submits_delete (l : list (Request * Continuation)) i req k :
  l !! i = Some (req, k) ->
  length (omap (fun rk : Request * Continuation =>
                  match snd rk with
                  | KHandleSubmit => Some (fst rk)
                  | KFetchClient => None
                  end) l) =
  (length (omap (fun rk : Request * Continuation =>
                   match snd rk with
                   | KHandleSubmit => Some (fst rk)
                   | KFetchClient => None
                   end) (delete i l)) +
   match k with KHandleSubmit => 1 | KFetchClient => 0 end)%nat.
Proof.
  intros Hi. rewrite delete_take_drop.
  rewrite <- (take_drop_middle l i (req, k) Hi) at 1.
  rewrite !omap_app, !length_app.
  destruct k; cbn; lia.
Qed.

(** *** The shape of what a mounted component can get to *)

Lemma Live_Shape_mount p : Live.Shape (Live.mount p).
Proof.
  unfold Live.Shape, Live.mount, Live.submitsInFlight.
  cbn [Live.page Live.owners]. rewrite mount_eq.
  cbn [state inflight timers location log initialState formData loading
       submitting error success].
  destruct (shouldFetch p); cbn [length omap]; repeat split; try discriminate;
    reflexivity.
Qed.

Lemma Live_Shape_step ev m m' :
  Live.Shape m -> Live.step ev m = Some m' -> Live.Shape m'.
Proof.
  intros (Hown & Hcnt & Hsuc & Hload) Hs. unfold Live.Shape.
  destruct ev as [ev | next].
  - destruct ev as [n v| | |i o|i]; cbn [Live.step] in Hs.
    + destruct (Live.onScreen m); [|discriminate].
      destruct (step (Live.props m) (Change n v) (Live.page m)) as [pg'|]
        eqn:H1; [|discriminate]. injection Hs as <-.
      apply step_Change_inv in H1 as (_ & Hl & _ & ->).
      cbn [Live.page Live.owners state inflight timers location log formData
           loading submitting error success] in *.
      unfold Live.submitsInFlight in *. cbn [inflight] in *.
      split; [exact Hown|]. split; [exact Hcnt|]. split; [exact Hsuc|].
      intros Hl'. congruence.
    + destruct (Live.onScreen m); [|discriminate].
      destruct (step (Live.props m) Submit (Live.page m)) as [pg'|]
        eqn:H1; [|discriminate]. injection Hs as <-.
      apply step_Submit_inv in H1 as (_ & Hl & Hsub & _ & ->).
      rewrite Hsub in Hcnt.
      cbn [Live.page Live.owners state inflight timers location log formData
           loading submitting error success].
      unfold Live.submitsInFlight. cbn [inflight].
      rewrite submitsInFlight_app, !length_app, Hown, Hcnt.
      cbn. split; [reflexivity|]. split; [reflexivity|].
      split; [reflexivity|]. discriminate.
    + destruct (Live.onScreen m); [|discriminate].
      destruct (step (Live.props m) Cancel (Live.page m)) as [pg'|]
        eqn:H1; [|discriminate]. injection Hs as <-.
      apply step_Cancel_inv in H1 as (_ & Hl & ->).
      cbn [Live.page Live.owners state inflight timers location log].
      unfold Live.submitsInFlight in *. cbn [inflight].
      split; [exact Hown|]. split; [exact Hcnt|]. split; [exact Hsuc|].
      intros Hl'. congruence.
    + destruct (Live.owners m !! i) as [q|] eqn:Hq; [|discriminate].
      destruct (step q (Settle i o) (Live.page m)) as [pg'|] eqn:H1;
        [|discriminate]. injection Hs as <-.
      apply step_Settle_inv in H1 as (req & k & st & tr & Hi & HS & ->).
      cbn [Live.page Live.owners state inflight timers location log].
      unfold Live.submitsInFlight in *. cbn [inflight].
      pose proof (submits_delete _ _ _ _ Hi) as Hdel.
      split.
      { rewrite !length_delete by eauto. congruence. }
      destruct HS as [r data ok Hj Hok Ht Hc | o m0 Hf
                     | r data ok Hj Hok Ht | o m0 Hf];
        cbn [formData loading submitting error success].
      * split; [lia|]. split; [exact Hsuc|]. discriminate.
      * split; [lia|]. split; [exact Hsuc|]. discriminate.
      * assert (submitting (state (Live.page m)) = true) as Hsub.
        { destruct (submitting (state (Live.page m))); [reflexivity|lia]. }
        rewrite Hsub in Hcnt.
        split; [lia|]. split; [discriminate|].
        intros Hl. destruct (Hload Hl) as (_ & Hsub' & _). congruence.
      * assert (submitting (state (Live.page m)) = true) as Hsub.
        { destruct (submitting (state (Live.page m))); [reflexivity|lia]. }
        rewrite Hsub in Hcnt.
        split; [lia|]. split; [discriminate|].
        intros Hl. destruct (Hload Hl) as (_ & Hsub' & _). congruence.
    + destruct (step (Live.props m) (TimerFires i) (Live.page m)) as [pg'|]
        eqn:H1; [|discriminate]. injection Hs as <-.
      apply step_TimerFires_inv in H1 as (path & ms & Hi & ->).
      cbn [Live.page Live.owners state inflight timers location log].
      unfold Live.submitsInFlight in *. cbn [inflight].
      split; [exact Hown|]. split; [exact Hcnt|]. split; [exact Hsuc|].
      intros Hl. destruct (Hload Hl) as (_ & _ & _ & _ & Htim & _).
      rewrite Htim in Hi. discriminate.
  - cbn [Live.step] in Hs.
    destruct (Live.onScreen m); [|discriminate]. injection Hs as <-.
    cbn [Live.page Live.owners].
    destruct (run_updateEffect (Live.props m) next (Live.page m))
      as (Hst & Hlog & Hin & Htim & Hloc).
    unfold Live.submitsInFlight in *.
    rewrite Hst, Hlog, Hin, Htim, Hloc.
    unfold submitRequests in *. rewrite !omap_app, !length_app, Hown.
    destruct (Live.depsChanged (Live.props m) next && shouldFetch next);
      cbn [omap snd fst length app]; rewrite ?app_nil_r, ?Nat.add_0_r.
    + split; [reflexivity|]. split; [exact Hcnt|]. split; [exact Hsuc|].
      exact Hload.
    + split; [reflexivity|]. split; [exact Hcnt|]. split; [exact Hsuc|].
      exact Hload.
Qed.

Lemma Live_Shape_steps evs : forall m m',
  Live.Shape m -> Live.steps evs m = Some m' -> Live.Shape m'.
Proof.
  induction evs as [|ev evs IH]; intros m m' HS Hs; cbn in Hs.
  - congruence.
  - destruct (Live.step ev m) as [m1|] eqn:H1; [|discriminate].
    eapply IH; [|exact Hs]. eapply Live_Shape_step; eassumption.
Qed.

Lemma Live_reachable_Shape m : Live.reachable m -> Live.Shape m.
Proof.
  intros (p0 & evs & Hs).
  eapply Live_Shape_steps; [apply Live_Shape_mount|exact Hs].
Qed.

Lemma Live_reachable_after p0 evs :
  is_Some (Live.steps evs (Live.mount p0)) ->
  Live.reachable (Live.after p0 evs).
Proof.
  intros [m Hs]. exists p0, evs. unfold Live.after. rewrite Hs. reflexivity.
Qed.


(** *** Failed loads *)

Lemma refetchAndFail_run :
  Live.steps Live.refetchAndFail (Live.mount editProps) =
  Some (Live.after editProps Live.refetchAndFail).
Proof. vm_compute. reflexivity. Qed.

(** C5, as stated, fails: client 42 is loaded into the edit form, the parent
    then renders the form with [clientId = 43], so the effect fetches
    again, and that load fails with [{success: false, message: "Not
    found"}].  The failed load leaves the fields of client 42 in the form,
    not the blank values of the first render. *)
Lemma failed_load_blank_counterexample :
  Live.steps Live.refetchAndFail (Live.mount editProps) =
    Some (Live.after editProps Live.refetchAndFail) /\
  LoadFailure (Resolved (respond 404 notFoundBody)) (JStr "Not found") /\
  error (state (Live.page (Live.after editProps Live.refetchAndFail))) =
    JStr "Not found" /\
  Live.onScreen (Live.after editProps Live.refetchAndFail) = true /\
  formData (state (Live.page (Live.after editProps Live.refetchAndFail)))
    !! "full_name" = Some (JStr "A") /\
  formData (state (Live.page (Live.after editProps Live.refetchAndFail)))
    <> blankForm.
Proof.
  split; [exact refetchAndFail_run|].
  split; [exact (load_reported (respond 404 notFoundBody) notFoundBody
                   (JBool false) eq_refl eq_refl eq_refl)|].
  split; [vm_compute; reflexivity|]. split; [vm_compute; reflexivity|].
  split; [vm_compute; reflexivity|].
  intros H. apply (f_equal (fun fd : ClientFormData => fd !! "full_name")) in H.
  vm_compute in H. discriminate.
Qed.

(** C5 (amended): when a load fails (the body reports failure, no client
    comes with it, or something is thrown), the form data is left as it was
    when the load settled; [error] holds the server's message or the
    fallback of that failure and its banner is rendered; the loading flag is
    down, as it is after every load, failed or not.  The form data left is
    the blank form of the first render whenever the loading indicator was
    still up when the load settled, whatever the props have become, and so
    always while the props are those of the mount. *)
Theorem failed_load_leaves_form_unchanged
    (p : ClientFormProps) (pg : Page) (i : nat) (req : Request)
    (o : FetchOutcome) (m : JsValue) :
  inflight pg !! i = Some (req, KFetchClient) ->
  LoadFailure o m ->
  exists pg',
    step p (Settle i o) pg = Some pg' /\
    formData (state pg') = formData (state pg) /\
    error (state pg') = m /\
    errorBannerOf (render p (state pg')) = Some m /\
    loading (state pg') = false /\
    (forall o' s, loading (cell (exec (fetchClient_resumed o') s)) = false) /\
    (forall lm, Live.reachable lm -> Live.page lm = pg ->
                loading (state pg) = true ->
                formData (state pg') = blankForm) /\
    (reachable p pg -> formData (state pg') = blankForm).
Proof.
  intros Hi Hf.
  destruct (settle_load_failure p pg i req o m Hi Hf) as (tr & Hstep & _).
  eexists. split; [exact Hstep|].
  cbn [state formData error loading].
  split; [reflexivity|]. split; [reflexivity|]. split.
  { unfold render. cbn [loading error errorBannerOf].
    apply banner_truthy. eapply LoadFailure_truthy. exact Hf. }
  split; [reflexivity|]. split.
  { intros o' s. apply fetchClient_resumed_finally. }
  split.
  - intros lm Hr <- Hl.
    destruct (Live_reachable_Shape lm Hr) as (_ & _ & _ & Hload).
    apply (Hload Hl).
  - intros Hr.
    apply (load_inflight_blank pg i req (reachable_Inv p pg Hr) Hi).
Qed.

(** C5 (amended) at a failed first load: the server answers
    [{success: false, message: "Not found"}] with status 404. *)
Lemma failed_load_leaves_form_unchanged_witness :
  (inflight (mount editProps) !! 0%nat =
     Some (Scenario.loadRequest, KFetchClient) /\
   LoadFailure (Resolved (respond 404 notFoundBody)) (JStr "Not found") /\
   reachable editProps (mount editProps)) /\
  exists pg',
    step editProps (Settle 0 (Resolved (respond 404 notFoundBody)))
         (mount editProps) = Some pg' /\
    formData (state pg') = formData (state (mount editProps)) /\
    error (state pg') = JStr "Not found" /\
    errorBannerOf (render editProps (state pg')) = Some (JStr "Not found") /\
    loading (state pg') = false /\
    formData (state pg') = blankForm.
Proof.
  assert (reachable editProps (mount editProps)) as Hr
    by (exists []; reflexivity).
  assert (LoadFailure (Resolved (respond 404 notFoundBody))
                      (JStr "Not found")) as Hf.
  { exact (load_reported (respond 404 notFoundBody) notFoundBody
             (JBool false) eq_refl eq_refl eq_refl). }
  split; [exact (conj mount_edit_page (conj Hf Hr))|].
  destruct (failed_load_leaves_form_unchanged editProps (mount editProps) 0
              Scenario.loadRequest (Resolved (respond 404 notFoundBody))
              (JStr "Not found") mount_edit_page Hf)
    as (pg' & Hs & Hfd & Herr & Hban & Hl & _ & _ & Hblank).
  exists pg'. split; [exact Hs|]. split; [exact Hfd|]. split; [exact Herr|].
  split; [exact Hban|]. split; [exact Hl|]. exact (Hblank Hr).
Defined.

(** *** Loads, submits and the loading indicator under changing props *)



(** X6: submits never overlap, whatever the props become and whatever
    loads are in flight beside them: at most one submit is in flight,
    [submitting] is raised exactly while one is, and while it is raised
    the submit event is not delivered. *)
Theorem submits_never_overlap (m : Live.Mounted) :
  Live.reachable m ->
  length (Live.submitsInFlight (Live.page m)) =
    (if submitting (state (Live.page m)) then 1 else 0)%nat /\
  (submitting (state (Live.page m)) = true ->
   Live.step (Live.Of Submit) m = None /\
   forall q, step q Submit (Live.page m) = None).
Proof.
  intros Hr. destruct (Live_reachable_Shape m Hr) as (_ & Hcnt & _).
  split; [exact Hcnt|]. intros Hsub.
  assert (forall q, step q Submit (Live.page m) = None) as Hblock.
  { intros q. unfold step, render.
    destruct (location (Live.page m)); [reflexivity|].
    destruct (loading (state (Live.page m))); [reflexivity|].
    rewrite Hsub. reflexivity. }
  split; [|exact Hblock]. cbn [Live.step].
  destruct (Live.onScreen m); [rewrite Hblock|]; reflexivity.
Qed.

(** X13: while the loading indicator is up the user has done nothing yet,
    whatever the props have become: the state is that of the first render,
    no submit is or ever was in flight, no timer is armed, the route is the
    form's, only the indicator is rendered, and the user can neither edit,
    submit nor cancel. *)
Theorem nothing_happens_while_loading (m : Live.Mounted) :
  Live.reachable m ->
  loading (state (Live.page m)) = true ->
  formData (state (Live.page m)) = blankForm /\
  submitting (state (Live.page m)) = false /\
  error (state (Live.page m)) = JStr "" /\
  success (state (Live.page m)) = JStr "" /\
  timers (Live.page m) = [] /\
  location (Live.page m) = None /\
  Live.submitsInFlight (Live.page m) = [] /\
  submitRequests (log (Live.page m)) = [] /\
  render (Live.props m) (state (Live.page m)) = LoadingView /\
  forall ev, userEvent ev = true -> Live.step (Live.Of ev) m = None.
Proof.
  intros Hr Hl. destruct (Live_reachable_Shape m Hr) as (_ & _ & _ & Hload).
  destruct (Hload Hl) as (H1 & H2 & H3 & H4 & H5 & H6 & H7 & H8).
  repeat (split; [assumption|]).
  split; [unfold render; rewrite Hl; reflexivity|].
  intros ev Hu.
  destruct ev; try discriminate; cbn [Live.step];
    (destruct (Live.onScreen m); [|reflexivity]);
    unfold step, render; rewrite Hl, H6; reflexivity.
Qed.


(** *** At the scenarios *)


Lemma refetching_reachable : Live.reachable Live.refetching.
Proof.
  exists editProps, [Live.Rerender Live.editProps43]. vm_compute. reflexivity.
Qed.

Lemma submitted_reachable : Live.reachable Live.submitted.
Proof.
  exists createProps, (map Live.Of fillAndSubmit). vm_compute. reflexivity.
Qed.




(** X6 at the create form filled and submitted. *)
Lemma submits_never_overlap_witness :
  Live.reachable Live.submitted /\
  length (Live.submitsInFlight (Live.page Live.submitted)) = 1%nat /\
  submitting (state (Live.page Live.submitted)) = true /\
  Live.step (Live.Of Submit) Live.submitted = None /\
  step editProps Submit (Live.page Live.submitted) = None.
Proof.
  split; [exact submitted_reachable|].
  destruct (submits_never_overlap Live.submitted submitted_reachable)
    as [H1 H2].
  split; [exact H1|]. split; [reflexivity|].
  destruct (H2 eq_refl) as [H3 H4].
  split; [exact H3|]. exact (H4 editProps).
Defined.

(** X13 at the edit form asked for client 43 while client 42 is loading. *)
Lemma nothing_happens_while_loading_witness :
  (Live.reachable Live.refetching /\
   loading (state (Live.page Live.refetching)) = true) /\
  length (inflight (Live.page Live.refetching)) = 2%nat /\
  formData (state (Live.page Live.refetching)) = blankForm /\
  render (Live.props Live.refetching) (state (Live.page Live.refetching)) =
    LoadingView /\
  Live.step (Live.Of Submit) Live.refetching = None.
Proof.
  split; [exact (conj refetching_reachable eq_refl)|].
  split; [reflexivity|].
  destruct (nothing_happens_while_loading Live.refetching
              refetching_reachable eq_refl)
    as (H1 & _ & _ & _ & _ & _ & _ & _ & H9 & H10).
  split; [exact H1|]. split; [exact H9|]. exact (H10 Submit eq_refl).
Defined.


End LiveProps.
